(** * Configuration resolution of the test runner

    A shallow embedding of [packages/test-runner/src/config/parseConfig.ts]:
    [validate], [validateConfig] and [parseConfig], with the properties the
    specification states about them.

    Modelling conventions.
    - The settings that [validateConfig] checks at run time, and every key it
      does not know, are JavaScript values looked up by key ([settings], a
      [gmap string value]): a wrong-typed value must be expressible there.
    - The other properties of [TestRunnerConfig] ([groups], [browsers],
      [plugins], ...) are never checked at run time; they carry the shape the
      code reads them at.
    - [parseConfig] builds the plugin list with [unshift] and [push], in place.
      Plugin arrays therefore live in a [store] and a configuration holds the
      address of its array.
    - What [parseConfig] imports from other packages (path, portfinder, the
      launcher and plugin factories) is either a field of [Env] or a
      constructor that records the call. *)

From Stdlib Require Import QArith Qminmax.
From stdpp Require Import gmap strings list.


Set Warnings "-register-all".

(** ** JavaScript values *)

(** A JavaScript number: every one of them has [typeof] "number". *)
Inductive number :=
| Finite (q : Q)
| NaN
| Infinity (negative : bool).

Inductive value :=
| VUndefined
| VNull
| VBool (b : bool)
| VNum (n : number)
| VStr (s : string)
| VArr (elems : list value)
| VObj (fields : list (string * value))
| VFun (name : string).

Definition int (z : Z) : value := VNum (Finite (inject_Z z)).

(** [Number.isInteger]. *)
Definition isInteger (v : value) : bool :=
  match v with
  | VNum (Finite q) => (Qnum q mod Zpos (Qden q) =? 0)%Z
  | _ => false
  end.

Definition typeof (v : value) : string :=
  match v with
  | VUndefined => "undefined"
  | VNull => "object"
  | VBool _ => "boolean"
  | VNum _ => "number"
  | VStr _ => "string"
  | VArr _ => "object"
  | VObj _ => "object"
  | VFun _ => "function"
  end.

(** [Array.isArray]. *)
Definition isArray (v : value) : bool :=
  match v with VArr _ => true | _ => false end.

(** [v == null]. *)
Definition nullish (v : value) : bool :=
  match v with VUndefined | VNull => true | _ => false end.

(** The condition of [if (v)]. *)
Definition truthy (v : value) : bool :=
  match v with
  | VUndefined | VNull => false
  | VBool b => b
  | VNum (Finite q) => negb (Qeq_bool q 0)
  | VNum NaN => false
  | VNum (Infinity _) => true
  | VStr s => negb (String.eqb s EmptyString)
  | VArr _ | VObj _ | VFun _ => true
  end.

(** [config[key]]: a missing property reads as [undefined]. *)
Definition get (config : gmap string value) (key : string) : value :=
  default VUndefined (config !! key).

(** ** Exceptions *)

Inductive exn :=
| TestRunnerStartError (message : string)
| Error (message : string).

Definition message_of (e : exn) : string :=
  match e with TestRunnerStartError m | Error m => m end.

Inductive result (A : Type) :=
| Ok (a : A)
| Throw (e : exn).
Arguments Ok {A} a.
Arguments Throw {A} e.

#[global] Instance result_ret : MRet result := λ A a, Ok a.
#[global] Instance result_bind : MBind result := λ A B f m,
  match m with Ok a => f a | Throw e => Throw e end.

(** [keys.forEach(key => f(key))] for an [f] that may throw. *)
Fixpoint forEach {A} (f : A → result ()) (l : list A) : result () :=
  match l with
  | [] => Ok ()
  | x :: l => f x ≫= λ _, forEach f l
  end.

(** ** validate and validateConfig (lines 40-87) *)

Definition validate (config : gmap string value) (key type : string) : result () :=
  if nullish (get config key) then Ok ()
  else if negb (String.eqb (typeof (get config key)) type) then
    Throw (TestRunnerStartError
      ("Configuration error: The " +:+ key +:+ " setting should be a " +:+ type +:+ "."))
  else Ok ().

Definition stringSettings : list string := ["rootDir"; "hostname"].
Definition numberSettings : list string :=
  ["port"; "concurrentBrowsers"; "concurrency"; "browserStartTimeout";
   "testsStartTimeout"; "testsFinishTimeout"].
Definition booleanSettings : list string :=
  ["watch"; "preserveSymlinks"; "browserLogs"; "coverage"; "staticLogging";
   "manual"; "open"; "debug"].

(** The run-time checks of [validateConfig], on the string-indexed view of the
    configuration. *)
Definition validateSettings (config : gmap string value) : result () :=
  forEach (λ key, validate config key "string") stringSettings ≫= λ _,
  forEach (λ key, validate config key "number") numberSettings ≫= λ _,
  forEach (λ key, validate config key "boolean") booleanSettings ≫= λ _,
  (if negb (nullish (get config "esbuildTarget")) &&
      negb (String.eqb (typeof (get config "esbuildTarget")) "string"
            || isArray (get config "esbuildTarget"))
   then Throw (Error "Configuration error: The esbuildTarget setting should be a string or array.")
   else Ok ()) ≫= λ _,
  (if negb (nullish (get config "files")) &&
      negb (String.eqb (typeof (get config "files")) "string"
            || isArray (get config "files"))
   then Throw (Error "Configuration error: The files setting should be a string or an array.")
   else Ok ()).

(** ** The configuration and its parts *)

(** [TestRunnerGroupConfig]: a named overlay; [files] is [VUndefined] when the
    group does not define it. *)
Record GroupConfig := mkGroup {
  name : string;
  files : value;
  overlay : gmap string value;
}.

(** An entry of [groups]: a glob pattern or an inline group object. *)
Inductive GroupEntry :=
| Pattern (glob : string)
| Inline (group : GroupConfig).

(** [groups]: one glob pattern, or a list of entries. *)
Inductive Groups :=
| GroupsPattern (glob : string)
| GroupsList (entries : list GroupEntry).

Inductive BrowserLauncher :=
| chromeLauncher
| launcher (family product : string).

Inductive Reporter :=
| defaultReporter
| reporter (label : string).

Inductive Logger :=
| TestRunnerLogger (debug : value)
| customLogger (label : string).

(** [nodeResolve]: a boolean or an options object. *)
Inductive NodeResolve :=
| NodeResolveFlag (b : bool)
| NodeResolveOptions (options : gmap string value).

(** Plugins are opaque to the resolver: a plugin made by [parseConfig] is the
    record of the call that made it. *)
Inductive Plugin :=
| syntaxChecker
| setViewportPlugin
| emulateMediaPlugin
| setUserAgentPlugin
| nodeResolvePlugin (rootDir preserveSymlinks : value)
                    (userOptions : option (gmap string value))
| esbuildPlugin (target : value)
| plugin (label : string).

(** Address of a plugin array in the store. *)
Abbreviation loc := nat.

Record Config := mkConfig {
  settings : gmap string value;
  groups : option Groups;
  browsers : option (list BrowserLauncher);
  testFramework : option (gmap string value);
  reporters : option (list Reporter);
  logger : option Logger;
  plugins : option loc;
  nodeResolve : option NodeResolve;
}.

Definition set_settings (f : gmap string value → gmap string value) (c : Config) : Config :=
  mkConfig (f (settings c)) (groups c) (browsers c) (testFramework c)
           (reporters c) (logger c) (plugins c) (nodeResolve c).
Definition set_groups (g : option Groups) (c : Config) : Config :=
  mkConfig (settings c) g (browsers c) (testFramework c)
           (reporters c) (logger c) (plugins c) (nodeResolve c).
Definition set_browsers (b : option (list BrowserLauncher)) (c : Config) : Config :=
  mkConfig (settings c) (groups c) b (testFramework c)
           (reporters c) (logger c) (plugins c) (nodeResolve c).
Definition set_testFramework (t : option (gmap string value)) (c : Config) : Config :=
  mkConfig (settings c) (groups c) (browsers c) t
           (reporters c) (logger c) (plugins c) (nodeResolve c).
Definition set_reporters (r : option (list Reporter)) (c : Config) : Config :=
  mkConfig (settings c) (groups c) (browsers c) (testFramework c)
           r (logger c) (plugins c) (nodeResolve c).
Definition set_logger (l : option Logger) (c : Config) : Config :=
  mkConfig (settings c) (groups c) (browsers c) (testFramework c)
           (reporters c) l (plugins c) (nodeResolve c).
Definition set_plugins (p : option loc) (c : Config) : Config :=
  mkConfig (settings c) (groups c) (browsers c) (testFramework c)
           (reporters c) (logger c) p (nodeResolve c).

(** [config.key], for a key of [settings]. *)
Definition setting (c : Config) (key : string) : value := get (settings c) key.

(** [config.key = v]. *)
Definition assign (key : string) (v : value) (c : Config) : Config :=
  set_settings (insert key v) c.

(** The empty object [{}]. *)
Definition emptyConfig : Config :=
  mkConfig ∅ None None None None None None None.

(** [TestRunnerCliArgs]: the properties it shares with [TestRunnerConfig]
    ([config], whose own [groups] and [browsers] are never read), and the
    controls of the command line; [browsers] is the list of browser names. *)
Module CliArgs.
Record t := mk {
  config : Config;
  group : option string;
  puppeteer : option bool;
  playwright : option bool;
  browsers : option (list string);
}.
Definition empty : t := mk emptyConfig None None None None.
End CliArgs.

(** [validateConfig] returns the object it was given. *)
Definition validateConfig (config : Config) : result Config :=
  validateSettings (settings config) ≫= λ _, Ok config.

(** ** The collaborators *)

(** [path.isAbsolute], for POSIX paths. *)
Definition isAbsolute (p : string) : bool :=
  match p with
  | String c _ => Ascii.eqb c (Ascii.ascii_of_nat 47)
  | EmptyString => false
  end.

(** What [parseConfig] reads from the process and from the packages it calls:
    [process.cwd()], [cpus().length], [path.resolve], portfinder's
    [getPortPromise({ port })], [collectGroupConfigs],
    [puppeteerLauncher] and [playwrightLauncher] (called with the browser
    names of the command line, or with [undefined]), and
    [require.resolve('@web/test-runner-mocha/dist/autorun.js')]. *)
Record Env := mkEnv {
  cwd : string;
  cpus : nat;
  path_resolve : string → string;
  path_resolve_absolute : ∀ p, isAbsolute (path_resolve p) = true;
  getPortPromise : Z → Z;
  collectGroupConfigs : list string → list GroupConfig;
  puppeteerLauncher : option (list string) → list BrowserLauncher;
  playwrightLauncher : option (list string) → list BrowserLauncher;
  autorun : string;
}.

(** ** The store of plugin arrays *)

Abbreviation store := (list (list Plugin)).

(** A computation that may throw and may update plugin arrays in place. *)
Definition M (A : Type) : Type := store → result A * store.

#[global] Instance M_ret : MRet M := λ A a σ, (Ok a, σ).
#[global] Instance M_bind : MBind M := λ A B f m σ,
  match m σ with
  | (Ok a, σ') => f a σ'
  | (Throw e, σ') => (Throw e, σ')
  end.

Definition lift {A} (r : result A) : M A := λ σ, (r, σ).

(** A new array literal. *)
Definition alloc (l : list Plugin) : M loc := λ σ, (Ok (length σ), σ ++ [l]).

(** [array.unshift(...items)] and [array.push(...items)] on the array at [r]. *)
Definition unshift (r : loc) (items : list Plugin) : M () :=
  λ σ, (Ok (), alter (λ l, items ++ l) r σ).
Definition push (r : loc) (items : list Plugin) : M () :=
  λ σ, (Ok (), alter (λ l, l ++ items) r σ).

Definition when (b : bool) (m : M ()) : M () := if b then m else mret ().

(** ** defaultConfig (lines 22-38) *)

Definition secondMs : Q := 1000.
Definition minuteMs : Q := secondMs * 60.

Definition num (q : Q) : value := VNum (Finite (Qred q)).

(** The array literal [plugins: []] of [defaultConfig] is made once, when the
    module is loaded: it is the first cell of the store. *)
Definition defaultPlugins : loc := 0.
Definition moduleStore : store := [[]].

Definition defaultConfig (E : Env) : Config :=
  mkConfig
    (list_to_map
       [("rootDir", VStr (cwd E));
        ("protocol", VStr "http:");
        ("hostname", VStr "localhost");
        ("middleware", VArr []);
        ("watch", VBool false);
        ("concurrentBrowsers", num 2);
        ("concurrency", num (Qmax 1 (inject_Z (Z.of_nat (cpus E)) / 2)));
        ("browserStartTimeout", num (minuteMs / 2));
        ("testsStartTimeout", num (secondMs * 20));
        ("testsFinishTimeout", num (minuteMs * 2));
        ("browserLogs", VBool true)])
    None None None None None (Some defaultPlugins) None.

(** ** mergeConfigs *)

(** The later source wins where it defines the property. *)
Definition override {A} (earlier later : option A) : option A :=
  match later with Some _ => later | None => earlier end.

(** [later], unless it is [undefined]. *)
Definition definedOr (earlier later : value) : value :=
  match later with VUndefined => earlier | _ => later end.

Definition overrideSetting (earlier later : value) : option value :=
  Some (definedOr earlier later).

(** Modelled from the spec: one step of mergeConfigs (section 4.2), the
    override of an earlier source by a later one, key by key. *)
Definition merge (earlier later : Config) : Config :=
  mkConfig
    (union_with overrideSetting (settings earlier) (settings later))
    (override (groups earlier) (groups later))
    (override (browsers earlier) (browsers later))
    (override (testFramework earlier) (testFramework later))
    (override (reporters earlier) (reporters later))
    (override (logger earlier) (logger later))
    (override (plugins earlier) (plugins later))
    (override (nodeResolve earlier) (nodeResolve later)).

(** Modelled from the spec: mergeConfigs.ts is not among the sources.
    Section 4.2: the sources are taken in order and, for each key, the last
    source that defines a non-undefined value wins; values are replaced
    wholesale, never merged or concatenated. A replaced array is the later
    source's array itself: its address is what is carried over. *)
Definition mergeConfigs (configs : list Config) : Config :=
  foldl merge emptyConfig configs.

(** ** parseConfig (lines 89-228) *)

Section parseConfig.
Context (E : Env).

(** Lines 93-99: [{ ...cliArgs, groups: undefined, browsers: undefined }].
    The spread also copies the controls of the command line that were
    given. *)
Definition spread (key : string) (v : option value)
    (m : gmap string value) : gmap string value :=
  match v with Some v => <[key := v]> m | None => m end.

Definition cliArgsConfig (cliArgs : CliArgs.t) : Config :=
  set_groups None (set_browsers None
    (set_settings
       (λ m, spread "group" (VStr <$> CliArgs.group cliArgs)
               (spread "puppeteer" (VBool <$> CliArgs.puppeteer cliArgs)
                  (spread "playwright" (VBool <$> CliArgs.playwright cliArgs) m)))
       (CliArgs.config cliArgs))).

(** Lines 103-108: ensure rootDir is always resolved. *)
Definition resolveRootDir (finalConfig : Config) : result Config :=
  match setting finalConfig "rootDir" with
  | VStr rootDir => Ok (assign "rootDir" (VStr (path_resolve E rootDir)) finalConfig)
  | _ => Throw (TestRunnerStartError "No rootDir specified.")
  end.

(** Lines 110-113: generate a default random port. *)
Definition resolvePort (finalConfig : Config) : Config :=
  match setting finalConfig "port" with
  | VNum _ => finalConfig
  | _ => assign "port" (int (getPortPromise E 8000)) finalConfig
  end.

(** Lines 115-130: the inline group objects, then the groups of the glob
    patterns. [if (finalConfig.groups)] is false for an absent [groups]
    and for the empty string. *)
Definition inlineGroups (entries : list GroupEntry) : list GroupConfig :=
  omap (λ entry, match entry with Inline g => Some g | Pattern _ => None end) entries.
Definition configPatterns (entries : list GroupEntry) : list string :=
  omap (λ entry, match entry with Pattern p => Some p | Inline _ => None end) entries.

Definition resolveGroups (finalConfig : Config) : list GroupConfig :=
  match groups finalConfig with
  | None => []
  | Some (GroupsPattern pattern) =>
      if String.eqb pattern EmptyString then []
      else collectGroupConfigs E [pattern]
  | Some (GroupsList entries) =>
      inlineGroups entries ++ collectGroupConfigs E (configPatterns entries)
  end.

(** Lines 132-136. *)
Definition dquote : string := String (Ascii.ascii_of_nat 34) EmptyString.

Definition checkReservedName (groupConfigs : list GroupConfig) : result () :=
  match find (λ g, String.eqb (name g) "default") groupConfigs with
  | Some _ =>
      Throw (Error ("Cannot create a group named " +:+ dquote +:+ "default" +:+ dquote
                    +:+ ". This named is reserved by the test runner."))
  | None => Ok ()
  end.

(** Lines 138-157: the group the command line focuses on. *)
Definition focusGroup (cliArgs : CliArgs.t) (finalConfig : Config)
    (groupConfigs : list GroupConfig) : result (Config * list GroupConfig) :=
  match CliArgs.group cliArgs with
  | None => Ok (finalConfig, groupConfigs)
  | Some group =>
      if String.eqb group "default" then Ok (finalConfig, [])
      else
        match find (λ c, String.eqb (name c) group) groupConfigs with
        | None =>
            Throw (TestRunnerStartError ("Could not find any group named " +:+ group))
        | Some groupConfig =>
            let groupConfig :=
              if nullish (files groupConfig)
              then mkGroup (name groupConfig) (setting finalConfig "files")
                           (overlay groupConfig)
              else groupConfig in
            Ok (assign "files" VUndefined finalConfig, [groupConfig])
        end
  end.

(** [finalConfig.browsers && finalConfig.browsers.length > 0]. *)
Definition definesBrowsers (finalConfig : Config) : bool :=
  match browsers finalConfig with
  | Some (_ :: _) => true
  | _ => false
  end.

(** Lines 159-184: the launchers. *)
Definition selectBrowsers (cliArgs : CliArgs.t) (finalConfig : Config) : result Config :=
  if default false (CliArgs.puppeteer cliArgs) then
    if definesBrowsers finalConfig then
      Throw (TestRunnerStartError
        "The --puppeteer flag cannot be used when defining browsers manually in your finalConfig.")
    else Ok (set_browsers (Some (puppeteerLauncher E (CliArgs.browsers cliArgs))) finalConfig)
  else if default false (CliArgs.playwright cliArgs) then
    if definesBrowsers finalConfig then
      Throw (TestRunnerStartError
        "The --playwright flag cannot be used when defining browsers manually in your finalConfig.")
    else Ok (set_browsers (Some (playwrightLauncher E (CliArgs.browsers cliArgs))) finalConfig)
  else
    match CliArgs.browsers cliArgs with
    | Some _ =>
        Throw (TestRunnerStartError
          "The browsers option must be used along with the puppeteer or playwright option.")
    | None =>
        match browsers finalConfig with
        | None => Ok (set_browsers (Some [chromeLauncher]) finalConfig)
        | Some _ => Ok finalConfig
        end
    end.

(** Lines 186-189: [{ path: autorun, ...(finalConfig.testFramework ?? {}) }]. *)
Definition resolveTestFramework (finalConfig : Config) : Config :=
  set_testFramework
    (Some (default ∅ (testFramework finalConfig) ∪ {["path" := VStr (autorun E)]}))
    finalConfig.

(** Lines 191-193. *)
Definition resolveReporters (finalConfig : Config) : Config :=
  match reporters finalConfig with
  | None => set_reporters (Some [defaultReporter]) finalConfig
  | Some _ => finalConfig
  end.

(** Lines 195-197: [config] is the first argument of [parseConfig]. *)
Definition resolveLogger (config finalConfig : Config) : Config :=
  match logger finalConfig with
  | None => set_logger (Some (TestRunnerLogger (setting config "debug"))) finalConfig
  | Some _ => finalConfig
  end.

(** The condition of [if (finalConfig.nodeResolve)], and [userOptions]. *)
Definition nodeResolveOn (finalConfig : Config) : bool :=
  match nodeResolve finalConfig with
  | None | Some (NodeResolveFlag false) => false
  | Some (NodeResolveFlag true) | Some (NodeResolveOptions _) => true
  end.
Definition userOptions (finalConfig : Config) : option (gmap string value) :=
  match nodeResolve finalConfig with
  | Some (NodeResolveOptions options) => Some options
  | _ => None
  end.

(** Lines 199-225: the plugin list, built in place. *)
Definition assemblePlugins (finalConfig : Config) : M Config :=
  r ← match plugins finalConfig with
      | Some r => mret r
      | None => alloc []
      end;
  let finalConfig := set_plugins (Some r) finalConfig in
  _ ← unshift r [syntaxChecker];
  _ ← unshift r [setViewportPlugin; emulateMediaPlugin; setUserAgentPlugin];
  _ ← when (nodeResolveOn finalConfig)
        (push r [nodeResolvePlugin (setting finalConfig "rootDir")
                   (setting finalConfig "preserveSymlinks")
                   (userOptions finalConfig)]);
  _ ← when (truthy (setting finalConfig "esbuildTarget"))
        (unshift r [esbuildPlugin (setting finalConfig "esbuildTarget")]);
  mret finalConfig.

(** Lines 93-157: merge, validate, root directory, port, groups and focus. *)
Definition configAndGroups (config : Config) (cliArgs : CliArgs.t)
    : result (Config * list GroupConfig) :=
  let mergedConfigs := mergeConfigs [defaultConfig E; config; cliArgsConfig cliArgs] in
  finalConfig ← validateConfig mergedConfigs;
  finalConfig ← resolveRootDir finalConfig;
  let finalConfig := resolvePort finalConfig in
  let groupConfigs := resolveGroups finalConfig in
  _ ← checkReservedName groupConfigs;
  focusGroup cliArgs finalConfig groupConfigs.

(** Lines 93-197: everything before the plugin list; no array is updated
    in place there. *)
Definition resolveConfig (config : Config) (cliArgs : CliArgs.t)
    : result (Config * list GroupConfig) :=
  '(finalConfig, groupConfigs) ← configAndGroups config cliArgs;
  finalConfig ← selectBrowsers cliArgs finalConfig;
  let finalConfig := resolveTestFramework finalConfig in
  let finalConfig := resolveReporters finalConfig in
  let finalConfig := resolveLogger config finalConfig in
  mret (finalConfig, groupConfigs).

Definition parseConfig (config : Config) (cliArgs : CliArgs.t)
    : M (Config * list GroupConfig) :=
  '(finalConfig, groupConfigs) ← lift (resolveConfig config cliArgs);
  finalConfig ← assemblePlugins finalConfig;
  mret (finalConfig, groupConfigs).

End parseConfig.

(** ** A concrete environment *)

(** A POSIX host: [path.resolve] on one segment, without normalisation;
    [dir] is the working directory without its leading slash. *)
Definition posix_resolve (dir p : string) : string :=
  if isAbsolute p then p else "/" +:+ dir +:+ "/" +:+ p.

Definition posix_resolve_absolute (dir p : string)
    : isAbsolute (posix_resolve dir p) = true :=
  match isAbsolute p as b
    return isAbsolute p = b →
           isAbsolute (if b then p else "/" +:+ dir +:+ "/" +:+ p) = true
  with
  | true => λ Hp, Hp
  | false => λ _, eq_refl
  end eq_refl.

Definition launchers (family : string) (names : option (list string)) (fallback : string)
    : list BrowserLauncher :=
  launcher family <$> default [fallback] names.

Definition posix : Env :=
  mkEnv "/work" 4 (posix_resolve "work") (posix_resolve_absolute "work")
        (λ port, port) (λ _, [])
        (λ names, launchers "puppeteer" names "chrome")
        (λ names, launchers "playwright" names "chromium")
        "/work/node_modules/@web/test-runner-mocha/dist/autorun.js".

(** ** The validator, check by check *)

(** One check of [validateConfig]: a key with the primitive type [validate]
    expects, or a key that takes a string or an array. *)
Inductive check :=
| Primitive (key type : string)
| StringOrArray (key expected : string).

Definition checked_key (ch : check) : string :=
  match ch with Primitive key _ | StringOrArray key _ => key end.
Definition expected_type (ch : check) : string :=
  match ch with Primitive _ type => type | StringOrArray _ expected => expected end.

(** The checks in the order [validateConfig] makes them. *)
Definition checks : list check :=
  ((λ key, Primitive key "string") <$> stringSettings)
  ++ ((λ key, Primitive key "number") <$> numberSettings)
  ++ ((λ key, Primitive key "boolean") <$> booleanSettings)
  ++ [StringOrArray "esbuildTarget" "string or array";
      StringOrArray "files" "string or an array"].

(** The value of the key is absent, null or of the expected type. *)
Definition passes (config : gmap string value) (ch : check) : bool :=
  match ch with
  | Primitive key type =>
      nullish (get config key) || String.eqb (typeof (get config key)) type
  | StringOrArray key _ =>
      nullish (get config key) || String.eqb (typeof (get config key)) "string"
      || isArray (get config key)
  end.

Definition offends (config : gmap string value) (ch : check) : bool :=
  negb (passes config ch).

Definition failure (ch : check) : exn :=
  let message :=
    "Configuration error: The " +:+ checked_key ch +:+ " setting should be a "
    +:+ expected_type ch +:+ "." in
  match ch with
  | Primitive _ _ => TestRunnerStartError message
  | StringOrArray _ _ => Error message
  end.

(** [part] occurs in [message]. *)
Definition mentions (message part : string) : bool :=
  match String.index 0 part message with Some _ => true | None => false end.

Definition names (e : exn) (ch : check) : bool :=
  mentions (message_of e) (checked_key ch) && mentions (message_of e) (expected_type ch).

Definition runCheck (config : gmap string value) (ch : check) : result () :=
  if passes config ch then Ok () else Throw (failure ch).

(** The claim of the specification about one key: when the key is wrong-typed,
    validation fails with an error that names the key and the expected type. *)
Definition fails_naming (config : Config) (ch : check) : Prop :=
  offends (settings config) ch = true →
  ∃ e, validateConfig config = Throw e ∧ names e ch = true.

(** The user configurations [{ rootDir: 5, hostname: 5 }] and
    [{ hostname: 5, colour: 5 }]. *)
Definition two_offenders : Config :=
  mkConfig (list_to_map [("rootDir", int 5); ("hostname", int 5)])
           None None None None None None None.

Definition one_offender : Config :=
  mkConfig (list_to_map [("hostname", int 5); ("colour", int 5)])
           None None None None None None None.

(** ** The plugin list, front to back *)

(** What [parseConfig] puts around the plugins [P] the array already holds:
    the esbuild plugin when [esbuildTarget] is truthy, the three command
    plugins, the syntax checker, [P], and the node-resolve plugin when
    [nodeResolve] is truthy. *)
Definition assembled (finalConfig : Config) (P : list Plugin) : list Plugin :=
  (if truthy (setting finalConfig "esbuildTarget")
   then [esbuildPlugin (setting finalConfig "esbuildTarget")] else [])
  ++ [setViewportPlugin; emulateMediaPlugin; setUserAgentPlugin; syntaxChecker]
  ++ P
  ++ (if nodeResolveOn finalConfig
      then [nodeResolvePlugin (setting finalConfig "rootDir")
              (setting finalConfig "preserveSymlinks") (userOptions finalConfig)]
      else []).

(** ** The merge policy in the words of the specification *)

(** The last value of the list that is not [undefined]. *)
Definition lastDefined (values : list value) : value :=
  foldl definedOr VUndefined values.

(** The user configuration [{ port: 9000 }]. *)
Definition port9000 : Config :=
  mkConfig {["port" := int 9000]} None None None None None None None.

(** ** Reading a run *)

(** The configuration and the groups a run returned (the empty ones if it
    threw). *)
Definition returned (run : result (Config * list GroupConfig) * store) : Config :=
  match run.1 with Ok (c, _) => c | Throw _ => emptyConfig end.
Definition returnedGroups (run : result (Config * list GroupConfig) * store)
    : list GroupConfig :=
  match run.1 with Ok (_, gs) => gs | Throw _ => [] end.

(** ** Root directory and port of a returned configuration *)

(** The invariant of the specification: [rootDir] is an absolute path and
    [port] is an integer. *)
Definition rootDir_absolute (c : Config) : Prop :=
  ∃ rootDir, setting c "rootDir" = VStr rootDir ∧ isAbsolute rootDir = true.
Definition port_integer (c : Config) : Prop :=
  isInteger (setting c "port") = true.

(** The user configurations [{ port: 8000.5 }] and [{ rootDir: null }]. *)
Definition fractionalPort : Config :=
  mkConfig {["port" := VNum (Finite (16001 # 2))]} None None None None None None None.
Definition nullRootDir : Config :=
  mkConfig {["rootDir" := VNull]} None None None None None None None.

(** ** Groups *)

Definition twoGroups : Config :=
  mkConfig {["files" := VStr "test/**/*.test.js"]}
           (Some (GroupsList [Inline (mkGroup "a" VUndefined ∅);
                              Pattern "test/groups/*.config.mjs";
                              Inline (mkGroup "b" (VStr "b/*.js") ∅);
                              Inline (mkGroup "a" (VStr "second/*.js") ∅)]))
           None None None None None None.

(** The command line [--group <name>]. *)
Definition focusOn (group : string) : CliArgs.t :=
  CliArgs.mk emptyConfig (Some group) None None None.

(** ** Launchers and logger *)

(** The command lines [--puppeteer --browsers firefox],
    [--playwright], [--browsers firefox] and [--debug]. *)
Definition puppeteerFirefox : CliArgs.t :=
  CliArgs.mk emptyConfig None (Some true) None (Some ["firefox"]).
Definition playwrightOnly : CliArgs.t :=
  CliArgs.mk emptyConfig None None (Some true) None.
Definition browsersOnly : CliArgs.t :=
  CliArgs.mk emptyConfig None None None (Some ["firefox"]).
Definition debugFlag : CliArgs.t :=
  CliArgs.mk (mkConfig {["debug" := VBool true]} None None None None None None None)
             None None None None.

(** The user configurations [{ browsers: [] }] and [{ browsers: [x] }]. *)
Definition noBrowsers : Config :=
  mkConfig ∅ None (Some []) None None None None None.
Definition oneBrowser : Config :=
  mkConfig ∅ None (Some [launcher "selenium" "safari"]) None None None None None.

(** ** Plugins *)


(** A user configuration with one plugin of its own, in the array at address
    1, node resolution and an esbuild target; and the store that holds the
    array of [defaultConfig] and that array. *)
Definition userPlugins : loc := 1.
Definition withUserPlugin : Config :=
  mkConfig {["esbuildTarget" := VStr "es2020"]} None None None None None
           (Some userPlugins) (Some (NodeResolveFlag true)).
Definition userStore : store := [[]; [plugin "P"]].


(** ** Further inputs *)

(** A user configuration with three faults at once: a wrong-typed [hostname],
    a group named "default" and a launcher of its own, to be run with
    [--puppeteer]. *)
Definition manyFaults : Config :=
  mkConfig {["hostname" := int 5]}
           (Some (GroupsList [Inline (mkGroup "default" VUndefined ∅)]))
           (Some [launcher "selenium" "safari"]) None None None None None.

(** The user configuration [{ testFramework: { config: { timeout: 3000 } } }]
    with a reporter list that is empty. *)
Definition mochaOptions : Config :=
  mkConfig ∅ None None
           (Some {["config" := VObj [("timeout", int 3000)]]})
           (Some []) None None None.

(** What validation can tell of a value: whether it is null or undefined, its
    [typeof], and whether it is an array. *)
Definition kind (v : value) : bool * string * bool :=
  (nullish v, typeof v, isArray v).

(** Settings with [files: [5, null]] and with [files: []]. *)
Definition oddFiles : gmap string value := {["files" := VArr [int 5; VNull]]}.
Definition noFiles : gmap string value := {["files" := VArr []]}.

(** A final configuration that holds no plugin array, with node resolution
    options. *)
Definition withoutArray : Config :=
  mkConfig {["rootDir" := VStr "/work"]} None None None None None None
           (Some (NodeResolveOptions {["browser" := VBool true]})).
(** * Properties *)

(** ** The validator *)

Lemma forEach_app {A} (f : A → result ()) (l1 l2 : list A) :
  forEach f (l1 ++ l2) = forEach f l1 ≫= λ _, forEach f l2.
Proof.
  induction l1 as [|x l1 IH]; simpl; [reflexivity|].
  destruct (f x) as [[]|e]; simpl; [exact IH | reflexivity].
Qed.

Lemma forEach_fmap {A B} (f : B → result ()) (g : A → B) (l : list A) :
  forEach f (g <$> l) = forEach (λ x, f (g x)) l.
Proof.
  induction l as [|x l IH]; simpl; [reflexivity|].
  destruct (f (g x)) as [[]|e]; simpl; [exact IH | reflexivity].
Qed.

Lemma forEach_ext {A} (f g : A → result ()) (l : list A) :
  (∀ x, f x = g x) → forEach f l = forEach g l.
Proof.
  intros Hfg. induction l as [|x l IH]; simpl; [reflexivity|].
  rewrite Hfg, IH. reflexivity.
Qed.

Lemma forEach_runCheck config (l : list check) :
  forEach (runCheck config) l =
  match find (offends config) l with
  | None => Ok ()
  | Some ch => Throw (failure ch)
  end.
Proof.
  induction l as [|ch l IH]; simpl; [reflexivity|].
  assert (Hch : runCheck config ch
                = if offends config ch then Throw (failure ch) else Ok ())
    by (unfold runCheck, offends; destruct (passes config ch); reflexivity).
  rewrite Hch. destruct (offends config ch); simpl; [reflexivity | exact IH].
Qed.

Lemma validate_runCheck config key type :
  validate config key type = runCheck config (Primitive key type).
Proof.
  unfold validate, runCheck, passes.
  destruct (nullish (get config key)); simpl; [reflexivity|].
  destruct (String.eqb (typeof (get config key)) type); reflexivity.
Qed.

Lemma bind_congr {A B} (m m' : result A) (f g : A → result B) :
  m = m' → (∀ x, f x = g x) → m ≫= f = m' ≫= g.
Proof. intros -> Hfg. destruct m'; simpl; [apply Hfg | reflexivity]. Qed.

Lemma forEach_validate config type (keys : list string) :
  forEach (λ key, validate config key type) keys
  = forEach (runCheck config) ((λ key, Primitive key type) <$> keys).
Proof.
  rewrite forEach_fmap. apply forEach_ext. intros key. apply validate_runCheck.
Qed.

Lemma validateSettings_checks config :
  validateSettings config = forEach (runCheck config) checks.
Proof.
  unfold validateSettings, checks.
  rewrite forEach_app. apply bind_congr; [apply forEach_validate | intros _].
  rewrite forEach_app. apply bind_congr; [apply forEach_validate | intros _].
  rewrite forEach_app. apply bind_congr; [apply forEach_validate | intros _].
  cbn [forEach]. unfold runCheck, passes.
  destruct (nullish (get config "esbuildTarget")),
    (String.eqb (typeof (get config "esbuildTarget")) "string"),
    (isArray (get config "esbuildTarget")),
    (nullish (get config "files")),
    (String.eqb (typeof (get config "files")) "string"),
    (isArray (get config "files")); reflexivity.
Qed.

(** Validation stops at the first check that fails. *)
Lemma validateConfig_find config :
  validateConfig config =
  match find (offends (settings config)) checks with
  | None => Ok config
  | Some ch => Throw (failure ch)
  end.
Proof.
  unfold validateConfig.
  rewrite validateSettings_checks, forEach_runCheck.
  destruct (find _ _); reflexivity.
Qed.

Lemma find_first {A} (f : A → bool) (before after : list A) (x : A) :
  Forall (λ y, f y = false) before → f x = true →
  find f (before ++ x :: after) = Some x.
Proof.
  intros Hbefore Hx. induction Hbefore as [|y before Hy _ IH]; simpl.
  - rewrite Hx. reflexivity.
  - rewrite Hy. exact IH.
Qed.

Lemma find_none_Forall {A} (f : A → bool) (l : list A) :
  Forall (λ y, f y = false) l → find f l = None.
Proof.
  induction 1 as [|y l Hy _ IH]; simpl; [reflexivity|]. rewrite Hy. exact IH.
Qed.

Lemma passes_offends config ch : passes config ch = true → offends config ch = false.
Proof. unfold offends. intros ->. reflexivity. Qed.

(** C5, as stated, fails: with [rootDir] and [hostname] both set to a number,
    [hostname] is wrong-typed, but the error names [rootDir]. *)
Lemma validation_names_every_offender_fails :
  ¬ fails_naming two_offenders (Primitive "hostname" "string").
Proof.
  intros Hclaim. destruct (Hclaim eq_refl) as (e & He & Hnames).
  vm_compute in He. injection He as <-. vm_compute in Hnames. discriminate.
Qed.

(** C5, amended. Validation stops at the first wrong-typed key in the order of
    the checks (string keys, number keys, boolean keys, esbuildTarget, files):
    - a recognized key that is wrong-typed, while no key checked before it is,
      makes validation fail with the error that names that key and the
      expected type;
    - validation fails only with the error of a recognized key that is
      wrong-typed: a key that is absent, null or correctly typed never
      fails it;
    - when every recognized key passes, whatever the other keys hold,
      validation returns the configuration. *)
Theorem validation_names_first_offender (config : Config) :
  (∀ before ch after,
     checks = before ++ ch :: after →
     Forall (λ c, passes (settings config) c = true) before →
     offends (settings config) ch = true →
     validateConfig config = Throw (failure ch) ∧ names (failure ch) ch = true)
  ∧ (∀ e, validateConfig config = Throw e →
       ∃ ch, ch ∈ checks ∧ offends (settings config) ch = true ∧ e = failure ch)
  ∧ (Forall (λ c, passes (settings config) c = true) checks →
     validateConfig config = Ok config).
Proof.
  split; [|split].
  - intros before ch after Hchecks Hbefore Hch. split.
    + rewrite validateConfig_find, Hchecks.
      rewrite (find_first _ before after ch); [reflexivity | | exact Hch].
      eapply Forall_impl; [exact Hbefore|]. intros c. apply passes_offends.
    + assert (Hall : Forall (λ c, names (failure c) c = true) checks)
        by (vm_compute; repeat constructor).
      rewrite Forall_forall in Hall. apply Hall.
      rewrite Hchecks. apply elem_of_app. right. apply list_elem_of_here.
  - intros e. rewrite validateConfig_find.
    destruct (find _ checks) as [ch|] eqn:Hfind; [|discriminate].
    intros [= <-]. apply find_some in Hfind as [Hin Hoff].
    exists ch. split; [apply list_elem_of_In; exact Hin | split; [exact Hoff | reflexivity]].
  - intros Hall. rewrite validateConfig_find.
    rewrite find_none_Forall; [reflexivity|].
    eapply Forall_impl; [exact Hall|]. intros c. apply passes_offends.
Qed.

(** With [hostname] alone wrong-typed, beside an unknown key, the error names
    [hostname]; the empty configuration passes. *)
Lemma validation_names_first_offender_witness :
  (validateConfig one_offender = Throw (failure (Primitive "hostname" "string"))
   ∧ names (failure (Primitive "hostname" "string")) (Primitive "hostname" "string") = true)
  ∧ validateConfig emptyConfig = Ok emptyConfig.
Proof.
  split.
  - apply (proj1 (validation_names_first_offender one_offender)
             [Primitive "rootDir" "string"] (Primitive "hostname" "string")
             (drop 2 checks)).
    + reflexivity.
    + repeat constructor.
    + reflexivity.
  - apply (proj2 (proj2 (validation_names_first_offender emptyConfig))).
    vm_compute. repeat constructor.
Defined.

(** ** The steps of parseConfig *)

Lemma setting_assign key v c key' :
  setting (assign key v c) key' = if decide (key = key') then v else setting c key'.
Proof.
  unfold setting, assign, get. simpl. rewrite lookup_insert.
  destruct (decide (key = key')); reflexivity.
Qed.

Lemma setting_assign_ne key v c key' :
  key ≠ key' → setting (assign key v c) key' = setting c key'.
Proof. intros Hne. rewrite setting_assign. destruct (decide _); [contradiction | reflexivity]. Qed.

Lemma setting_assign_eq key v c : setting (assign key v c) key = v.
Proof. rewrite setting_assign. destruct (decide _); [reflexivity | contradiction]. Qed.

Lemma setting_merge earlier later key :
  setting (merge earlier later) key
  = definedOr (setting earlier key) (setting later key).
Proof.
  unfold setting, get, merge. simpl. rewrite lookup_union_with.
  destruct (settings earlier !! key) as [x|], (settings later !! key) as [y|];
    simpl; try reflexivity; destruct y; reflexivity.
Qed.

Lemma setting_foldl_merge configs acc key :
  setting (foldl merge acc configs) key =
  foldl definedOr (setting acc key) ((λ c, setting c key) <$> configs).
Proof.
  revert acc. induction configs as [|c configs IH]; intros acc; simpl; [reflexivity|].
  rewrite IH, setting_merge. reflexivity.
Qed.

Lemma setting_mergeConfigs configs key :
  setting (mergeConfigs configs) key = lastDefined ((λ c, setting c key) <$> configs).
Proof. unfold mergeConfigs, lastDefined. apply setting_foldl_merge. Qed.

Section steps.
Context (E : Env).

Lemma setting_spread key v m key' :
  key ≠ key' → get (spread key v m) key' = get m key'.
Proof.
  intros Hne. unfold spread, get. destruct v; [|reflexivity].
  rewrite lookup_insert_ne; [reflexivity | exact Hne].
Qed.

(** The controls that the spread copies do not touch the other keys. *)
Lemma setting_cliArgsConfig cliArgs key :
  key ≠ "group" → key ≠ "puppeteer" → key ≠ "playwright" →
  setting (cliArgsConfig cliArgs) key = setting (CliArgs.config cliArgs) key.
Proof.
  intros Hg Hpu Hpl. unfold cliArgsConfig, setting. simpl.
  rewrite !setting_spread; [reflexivity | congruence..].
Qed.

Lemma resolveRootDir_Ok c c' :
  resolveRootDir E c = Ok c' →
  ∃ rootDir, setting c "rootDir" = VStr rootDir
             ∧ c' = assign "rootDir" (VStr (path_resolve E rootDir)) c.
Proof.
  unfold resolveRootDir. destruct (setting c "rootDir"); try discriminate.
  intros [= <-]. eexists. split; reflexivity.
Qed.

Lemma resolvePort_setting c key :
  key ≠ "port" → setting (resolvePort E c) key = setting c key.
Proof.
  intros Hne. unfold resolvePort.
  destruct (setting c "port"); try reflexivity;
    (rewrite setting_assign_ne; [reflexivity | congruence]).
Qed.

Lemma focusGroup_setting cliArgs c gs c' gs' key :
  focusGroup cliArgs c gs = Ok (c', gs') → key ≠ "files" →
  setting c' key = setting c key.
Proof.
  unfold focusGroup. intros H Hne.
  destruct (CliArgs.group cliArgs) as [group|]; [|injection H as <- _; reflexivity].
  destruct (String.eqb group "default"); [injection H as <- _; reflexivity|].
  destruct (find _ gs); [|discriminate].
  injection H as <- _. apply setting_assign_ne. congruence.
Qed.

Lemma selectBrowsers_Ok cliArgs c c' :
  selectBrowsers E cliArgs c = Ok c' → ∃ b, c' = set_browsers b c.
Proof.
  unfold selectBrowsers. intros H.
  destruct (default false (CliArgs.puppeteer cliArgs)).
  { destruct (definesBrowsers c); [discriminate|]. injection H as <-. eauto. }
  destruct (default false (CliArgs.playwright cliArgs)).
  { destruct (definesBrowsers c); [discriminate|]. injection H as <-. eauto. }
  destruct (CliArgs.browsers cliArgs); [discriminate|].
  destruct (browsers c) eqn:Hb; injection H as <-; [|eauto].
  exists (Some l). destruct c; simpl in *; subst; reflexivity.
Qed.

(** The steps that follow the launchers leave the settings alone. *)
Lemma setting_defaults config c key :
  setting (resolveLogger config (resolveReporters (resolveTestFramework E c))) key
  = setting c key.
Proof.
  unfold resolveLogger, resolveReporters, resolveTestFramework, setting.
  destruct (reporters _), (logger _); reflexivity.
Qed.

(** [resolveConfig], step by step. *)
Lemma configAndGroups_Ok config cliArgs c gs :
  configAndGroups E config cliArgs = Ok (c, gs) →
  let merged := mergeConfigs [defaultConfig E; config; cliArgsConfig cliArgs] in
  ∃ rooted,
    validateConfig merged = Ok merged
    ∧ resolveRootDir E merged = Ok rooted
    ∧ checkReservedName (resolveGroups E (resolvePort E rooted)) = Ok ()
    ∧ focusGroup cliArgs (resolvePort E rooted)
        (resolveGroups E (resolvePort E rooted)) = Ok (c, gs).
Proof.
  intros H merged. unfold configAndGroups in H. fold merged in H.
  destruct (validateConfig merged) as [validated|] eqn:Hv; [|discriminate].
  assert (validated = merged) as ->.
  { unfold validateConfig in Hv. destruct (validateSettings _); [|discriminate].
    injection Hv as <-. reflexivity. }
  simpl in H.
  destruct (resolveRootDir E merged) as [rooted|] eqn:Hr; [|discriminate]. simpl in H.
  destruct (checkReservedName _) as [[]|] eqn:Hn; [|discriminate]. simpl in H.
  exists rooted. repeat split; assumption.
Qed.

Lemma resolveConfig_Ok config cliArgs c gs :
  resolveConfig E config cliArgs = Ok (c, gs) →
  ∃ focused selected,
    configAndGroups E config cliArgs = Ok (focused, gs)
    ∧ selectBrowsers E cliArgs focused = Ok selected
    ∧ c = resolveLogger config (resolveReporters (resolveTestFramework E selected)).
Proof.
  intros H. unfold resolveConfig in H.
  destruct (configAndGroups E config cliArgs) as [[focused gs']|]; [|discriminate].
  simpl in H.
  destruct (selectBrowsers E cliArgs focused) as [selected|] eqn:Hs; [|discriminate].
  simpl in H. injection H as <- <-.
  exists focused, selected. repeat split; assumption.
Qed.

(** [assemblePlugins] never throws: it updates in place the array the
    configuration holds, or a new one when it holds none. *)
Lemma assemblePlugins_run c σ :
  assemblePlugins c σ =
  match plugins c with
  | Some r => (Ok (set_plugins (Some r) c), alter (assembled c) r σ)
  | None => (Ok (set_plugins (Some (length σ)) c), σ ++ [assembled c []])
  end.
Proof.
  assert (Hrun : ∀ r σ0,
    (_ ← unshift r [syntaxChecker];
     _ ← unshift r [setViewportPlugin; emulateMediaPlugin; setUserAgentPlugin];
     _ ← when (nodeResolveOn (set_plugins (Some r) c))
           (push r [nodeResolvePlugin (setting (set_plugins (Some r) c) "rootDir")
                      (setting (set_plugins (Some r) c) "preserveSymlinks")
                      (userOptions (set_plugins (Some r) c))]);
     _ ← when (truthy (setting (set_plugins (Some r) c) "esbuildTarget"))
           (unshift r [esbuildPlugin (setting (set_plugins (Some r) c) "esbuildTarget")]);
     mret (set_plugins (Some r) c)) σ0
    = (Ok (set_plugins (Some r) c), alter (assembled c) r σ0)).
  { intros r σ0. unfold assembled, mbind, M_bind, unshift, push, when, mret, M_ret.
    change (nodeResolveOn (set_plugins (Some r) c)) with (nodeResolveOn c).
    change (userOptions (set_plugins (Some r) c)) with (userOptions c).
    change (setting (set_plugins (Some r) c)) with (setting c).
    destruct (nodeResolveOn c), (truthy (setting c "esbuildTarget")); simpl;
      rewrite ?list_alter_alter_eq; f_equal;
      apply list_alter_ext; try reflexivity; intros l _; simpl;
      rewrite ?app_nil_r; reflexivity. }
  unfold assemblePlugins. destruct (plugins c) as [r|].
  - apply Hrun.
  - unfold mbind at 1. unfold M_bind at 1. unfold alloc. cbv beta iota.
    rewrite Hrun. f_equal.
    rewrite <- (Nat.add_0_r (length σ)) at 1. rewrite alter_app_r. reflexivity.
Qed.

Lemma parseConfig_run config cliArgs σ :
  parseConfig E config cliArgs σ =
  match resolveConfig E config cliArgs with
  | Throw e => (Throw e, σ)
  | Ok (c, gs) =>
      match plugins c with
      | Some r => (Ok (set_plugins (Some r) c, gs), alter (assembled c) r σ)
      | None => (Ok (set_plugins (Some (length σ)) c, gs), σ ++ [assembled c []])
      end
  end.
Proof.
  unfold parseConfig, lift. unfold mbind at 1, M_bind at 1.
  destruct (resolveConfig E config cliArgs) as [[c gs]|e]; [|reflexivity].
  unfold mbind, M_bind. rewrite assemblePlugins_run.
  destruct (plugins c); reflexivity.
Qed.

Lemma parseConfig_Ok config cliArgs σ c gs σ' :
  parseConfig E config cliArgs σ = (Ok (c, gs), σ') →
  ∃ c0, resolveConfig E config cliArgs = Ok (c0, gs)
        ∧ (∀ key, setting c key = setting c0 key)
        ∧ ∃ r, c = set_plugins (Some r) c0.
Proof.
  rewrite parseConfig_run.
  destruct (resolveConfig E config cliArgs) as [[c0 gs0]|e]; [|discriminate].
  destruct (plugins c0) as [r|]; intros [= <- <- <-];
    (exists c0; split; [reflexivity | split; [reflexivity | eauto]]).
Qed.

End steps.

(** ** Root directory and port *)

Section root_and_port.
Context (E : Env).

Lemma resolvePort_port c :
  setting (resolvePort E c) "port" =
  match setting c "port" with
  | VNum n => VNum n
  | _ => int (getPortPromise E 8000)
  end.
Proof.
  unfold resolvePort.
  destruct (setting c "port") eqn:Hport; try apply setting_assign_eq. exact Hport.
Qed.

(** What a resolution that returns has done to [rootDir] and [port]. *)
Lemma resolveConfig_root_port config cliArgs c gs :
  resolveConfig E config cliArgs = Ok (c, gs) →
  let merged := mergeConfigs [defaultConfig E; config; cliArgsConfig cliArgs] in
  (∃ rootDir, setting merged "rootDir" = VStr rootDir
              ∧ setting c "rootDir" = VStr (path_resolve E rootDir))
  ∧ setting c "port" =
    match setting merged "port" with
    | VNum n => VNum n
    | _ => int (getPortPromise E 8000)
    end.
Proof.
  intros H merged.
  destruct (resolveConfig_Ok E _ _ _ _ H) as (focused & selected & Hcg & Hsel & ->).
  destruct (configAndGroups_Ok E _ _ _ _ Hcg) as (rooted & _ & Hroot & _ & Hfocus).
  fold merged in Hroot.
  apply resolveRootDir_Ok in Hroot as (rootDir & HrootDir & ->).
  apply selectBrowsers_Ok in Hsel as [b ->].
  rewrite !setting_defaults.
  change (setting (set_browsers b focused)) with (setting focused).
  rewrite !(focusGroup_setting _ _ _ _ _ _ Hfocus) by congruence.
  split.
  - exists rootDir. split; [exact HrootDir|].
    rewrite resolvePort_setting by congruence. apply setting_assign_eq.
  - rewrite resolvePort_port. rewrite setting_assign_ne by congruence. reflexivity.
Qed.

End root_and_port.

(** ** The merger *)

(** C7. Merging is last-writer-wins per key over the ordered sources, the
    winning value taken whole: a setting of the merged configuration is the
    last value that is not undefined among the sources, and the plugin array
    is that of the last source that has one. With the user configuration
    [{ port: 9000 }] and no command-line argument the resolution returns port
    9000; with no port in the user configuration nor on the command line the
    returned port is the one of the port finder, asked with 8000 (and the
    resolution of the empty configuration does return). *)
Theorem merge_last_writer_wins (E : Env) :
  (∀ configs key,
     setting (mergeConfigs configs) key = lastDefined ((λ c, setting c key) <$> configs))
  ∧ (∀ config cliArgs,
       plugins (mergeConfigs [defaultConfig E; config; cliArgsConfig cliArgs])
       = override (override (plugins (defaultConfig E)) (plugins config))
                  (plugins (CliArgs.config cliArgs)))
  ∧ (∀ σ, ∃ c gs σ',
       parseConfig E port9000 CliArgs.empty σ = (Ok (c, gs), σ')
       ∧ setting c "port" = int 9000)
  ∧ (∀ σ, ∃ c gs σ',
       parseConfig E emptyConfig CliArgs.empty σ = (Ok (c, gs), σ')
       ∧ setting c "port" = int (getPortPromise E 8000))
  ∧ (∀ config cliArgs σ c gs σ',
       setting config "port" = VUndefined →
       setting (CliArgs.config cliArgs) "port" = VUndefined →
       parseConfig E config cliArgs σ = (Ok (c, gs), σ') →
       setting c "port" = int (getPortPromise E 8000)).
Proof.
  split; [exact setting_mergeConfigs | split; [reflexivity | split; [|split]]].
  - intros σ.
    assert (Hrun : match parseConfig E port9000 CliArgs.empty σ with
                   | (Ok (c, _), _) => setting c "port" = int 9000
                   | (Throw _, _) => False
                   end) by (vm_compute; reflexivity).
    destruct (parseConfig E port9000 CliArgs.empty σ) as [[[c gs]|e] σ'];
      [eauto | contradiction].
  - intros σ.
    assert (Hrun : match parseConfig E emptyConfig CliArgs.empty σ with
                   | (Ok (c, _), _) => setting c "port" = int (getPortPromise E 8000)
                   | (Throw _, _) => False
                   end) by (vm_compute; reflexivity).
    destruct (parseConfig E emptyConfig CliArgs.empty σ) as [[[c gs]|e] σ'];
      [eauto | contradiction].
  - intros config cliArgs σ c gs σ' Huser Hcli Hrun.
    apply parseConfig_Ok in Hrun as (c0 & Hres & Hsettings & _).
    rewrite Hsettings.
    destruct (resolveConfig_root_port E _ _ _ _ Hres) as [_ ->].
    rewrite setting_mergeConfigs. simpl.
    rewrite setting_cliArgsConfig by congruence.
    rewrite Huser, Hcli. reflexivity.
Qed.

(** On the POSIX host the port finder answers 8000. *)
Lemma merge_last_writer_wins_witness :
  setting (returned (parseConfig posix emptyConfig CliArgs.empty moduleStore)) "port"
  = int 8000.
Proof.
  apply (proj2 (proj2 (proj2 (proj2 (merge_last_writer_wins posix))))
           emptyConfig CliArgs.empty moduleStore _
           (returnedGroups (parseConfig posix emptyConfig CliArgs.empty moduleStore))
           (parseConfig posix emptyConfig CliArgs.empty moduleStore).2).
  - reflexivity.
  - reflexivity.
  - vm_compute. reflexivity.
Defined.

(** ** The invariant of a returned configuration *)

Lemma isInteger_int z : isInteger (int z) = true.
Proof. unfold isInteger, int. simpl. rewrite Z.mod_1_r. reflexivity. Qed.

(** C6, as stated, fails: the user configuration [{ port: 8000.5 }] passes
    validation (its port is a number) and is returned with that port. *)
Lemma returned_port_integer_fails :
  ¬ (∀ c gs σ',
       parseConfig posix fractionalPort CliArgs.empty moduleStore = (Ok (c, gs), σ') →
       rootDir_absolute c ∧ port_integer c).
Proof.
  intros Hclaim.
  destruct (Hclaim
              (returned (parseConfig posix fractionalPort CliArgs.empty moduleStore))
              (returnedGroups (parseConfig posix fractionalPort CliArgs.empty moduleStore))
              (parseConfig posix fractionalPort CliArgs.empty moduleStore).2)
    as [_ Hport].
  - vm_compute. reflexivity.
  - vm_compute in Hport. discriminate.
Qed.

(** C6, amended. A configuration returned by a resolution has a [rootDir]
    that is an absolute path, the merged [rootDir] resolved, and a [port] that
    is a number: the merged port when that is a number already, whatever
    number it is, and otherwise the one of the port finder asked with 8000,
    an integer. When the merged configuration passes validation and its
    [rootDir] is not a string (it is then null or undefined), the resolution
    fails with "No rootDir specified." *)
Theorem returned_root_and_port (E : Env) config cliArgs σ :
  let merged := mergeConfigs [defaultConfig E; config; cliArgsConfig cliArgs] in
  (∀ c gs σ',
     parseConfig E config cliArgs σ = (Ok (c, gs), σ') →
     (∃ rootDir, setting merged "rootDir" = VStr rootDir
                 ∧ setting c "rootDir" = VStr (path_resolve E rootDir))
     ∧ rootDir_absolute c
     ∧ typeof (setting c "port") = "number"
     ∧ setting c "port" = match setting merged "port" with
                          | VNum n => VNum n
                          | _ => int (getPortPromise E 8000)
                          end
     ∧ (typeof (setting merged "port") ≠ "number" → port_integer c))
  ∧ (validateConfig merged = Ok merged →
     typeof (setting merged "rootDir") ≠ "string" →
     parseConfig E config cliArgs σ
     = (Throw (TestRunnerStartError "No rootDir specified."), σ)).
Proof.
  intros merged. split.
  - intros c gs σ' Hrun.
    apply parseConfig_Ok in Hrun as (c0 & Hres & Hsettings & _).
    destruct (resolveConfig_root_port E _ _ _ _ Hres) as [(rootDir & Hm & Hc) Hport].
    fold merged in Hm, Hport. unfold rootDir_absolute, port_integer.
    rewrite !Hsettings, Hport. repeat split.
    + exists rootDir. split; assumption.
    + exists (path_resolve E rootDir). split; [exact Hc | apply path_resolve_absolute].
    + destruct (setting merged "port"); reflexivity.
    + destruct (setting merged "port"); try (intros _; apply isInteger_int).
      intros Hne. contradiction Hne. reflexivity.
  - intros Hvalid Hroot. rewrite parseConfig_run. unfold resolveConfig, configAndGroups.
    fold merged. rewrite Hvalid. simpl. unfold resolveRootDir.
    destruct (setting merged "rootDir"); try reflexivity.
    contradiction Hroot. reflexivity.
Qed.

(** On the POSIX host: [{ port: 9000 }] is returned with an absolute root
    directory and a number for port; [{ rootDir: null }] is rejected. *)
Lemma returned_root_and_port_witness :
  (rootDir_absolute (returned (parseConfig posix port9000 CliArgs.empty moduleStore))
   ∧ typeof (setting (returned (parseConfig posix port9000 CliArgs.empty moduleStore))
               "port") = "number")
  ∧ parseConfig posix nullRootDir CliArgs.empty moduleStore
    = (Throw (TestRunnerStartError "No rootDir specified."), moduleStore).
Proof.
  split.
  - destruct (proj1 (returned_root_and_port posix port9000 CliArgs.empty moduleStore)
                (returned (parseConfig posix port9000 CliArgs.empty moduleStore))
                (returnedGroups (parseConfig posix port9000 CliArgs.empty moduleStore))
                (parseConfig posix port9000 CliArgs.empty moduleStore).2)
      as (_ & Habs & Hnum & _).
    + vm_compute. reflexivity.
    + split; assumption.
  - apply (proj2 (returned_root_and_port posix nullRootDir CliArgs.empty moduleStore)).
    + vm_compute. reflexivity.
    + vm_compute. discriminate.
Defined.

(** ** Groups *)

Section groups.
Context (E : Env).

Lemma groups_merged config cliArgs :
  groups (mergeConfigs [defaultConfig E; config; cliArgsConfig cliArgs]) = groups config.
Proof. simpl. destruct (groups config); reflexivity. Qed.

(** Resolving the root directory and the port does not touch [groups]. *)
Lemma resolveGroups_rooted c rooted :
  resolveRootDir E c = Ok rooted →
  resolveGroups E (resolvePort E rooted) = resolveGroups E c.
Proof.
  intros Hroot. apply resolveRootDir_Ok in Hroot as (rootDir & _ & ->).
  unfold resolveGroups, resolvePort.
  destruct (setting _ "port"); reflexivity.
Qed.

Lemma resolveGroups_merged config cliArgs :
  resolveGroups E (mergeConfigs [defaultConfig E; config; cliArgsConfig cliArgs])
  = resolveGroups E config.
Proof. unfold resolveGroups. rewrite groups_merged. reflexivity. Qed.

Lemma resolveRootDir_string c :
  typeof (setting c "rootDir") = "string" → ∃ rooted, resolveRootDir E c = Ok rooted.
Proof.
  unfold resolveRootDir. destruct (setting c "rootDir"); try discriminate. eauto.
Qed.


Lemma checkReservedName_Ok gs :
  (∀ g, g ∈ gs → name g ≠ "default") → checkReservedName gs = Ok ().
Proof.
  intros Hall. unfold checkReservedName.
  destruct (find _ gs) as [g|] eqn:Hfind; [|reflexivity].
  apply find_some in Hfind as [Hin Hname].
  apply String.eqb_eq in Hname. apply list_elem_of_In in Hin.
  contradiction (Hall g Hin).
Qed.

(** The resolution up to the groups, for a merged configuration that passes
    validation and has a root directory. *)
Lemma resolveConfig_groups config cliArgs :
  let merged := mergeConfigs [defaultConfig E; config; cliArgsConfig cliArgs] in
  validateConfig merged = Ok merged →
  typeof (setting merged "rootDir") = "string" →
  ∃ rooted,
    resolveRootDir E merged = Ok rooted
    ∧ configAndGroups E config cliArgs =
      (_ ← checkReservedName (resolveGroups E config);
       focusGroup cliArgs (resolvePort E rooted) (resolveGroups E config))
    ∧ resolveConfig E config cliArgs =
      (_ ← checkReservedName (resolveGroups E config);
       '(finalConfig, groupConfigs) ←
         focusGroup cliArgs (resolvePort E rooted) (resolveGroups E config);
       finalConfig ← selectBrowsers E cliArgs finalConfig;
       mret (resolveLogger config
               (resolveReporters (resolveTestFramework E finalConfig)),
             groupConfigs)).
Proof.
  intros merged Hvalid Hstring.
  destruct (resolveRootDir_string _ Hstring) as [rooted Hroot].
  exists rooted. split; [exact Hroot|].
  assert (Hgroups : resolveGroups E (resolvePort E rooted) = resolveGroups E config)
    by (rewrite (resolveGroups_rooted _ _ Hroot); apply resolveGroups_merged).
  assert (Hcg : configAndGroups E config cliArgs =
                (_ ← checkReservedName (resolveGroups E config);
                 focusGroup cliArgs (resolvePort E rooted) (resolveGroups E config))).
  { unfold configAndGroups. fold merged. rewrite Hvalid. simpl. rewrite Hroot. simpl.
    rewrite Hgroups. reflexivity. }
  split; [exact Hcg|].
  unfold resolveConfig. rewrite Hcg.
  destruct (checkReservedName _) as [[]|]; reflexivity.
Qed.


End groups.


(** ** Focus on a group *)

Section focus.
Context (E : Env).

Lemma setting_rooted c rooted key :
  resolveRootDir E c = Ok rooted → key ≠ "rootDir" → key ≠ "port" →
  setting (resolvePort E rooted) key = setting c key.
Proof.
  intros Hroot Hr Hp. apply resolveRootDir_Ok in Hroot as (rootDir & _ & ->).
  rewrite resolvePort_setting by exact Hp. apply setting_assign_ne. congruence.
Qed.

Lemma find_name_none group (gs : list GroupConfig) :
  (∀ g, g ∈ gs → name g ≠ group) → find (λ c, String.eqb (name c) group) gs = None.
Proof.
  intros Hall. apply find_none_Forall. apply Forall_forall. intros g Hg.
  apply String.eqb_neq. exact (Hall g Hg).
Qed.

Lemma find_name_first group (before after : list GroupConfig) g :
  (∀ g', g' ∈ before → name g' ≠ group) → name g = group →
  find (λ c, String.eqb (name c) group) (before ++ g :: after) = Some g.
Proof.
  intros Hbefore Hg. apply find_first.
  - apply Forall_forall. intros g' Hg'. apply String.eqb_neq. exact (Hbefore g' Hg').
  - apply String.eqb_eq. exact Hg.
Qed.

(** C3. For a resolution that reaches the focus (the merged configuration
    passes validation and has a root directory, no group is named "default")
    with a focus [group] on the command line:
    - if [group] is "default", a resolution that returns returns no group;
    - otherwise, if no resolved group has that name, the resolution fails
      with "Could not find any group named ...";
    - otherwise a resolution that returns returns exactly the first group of
      that name, with the files of the root configuration when its own are
      null or undefined, and [files] of the returned configuration is
      undefined. *)
Theorem focus_on_group config cliArgs σ group :
  let merged := mergeConfigs [defaultConfig E; config; cliArgsConfig cliArgs] in
  validateConfig merged = Ok merged →
  typeof (setting merged "rootDir") = "string" →
  (∀ g, g ∈ resolveGroups E config → name g ≠ "default") →
  CliArgs.group cliArgs = Some group →
  (group = "default" →
     ∀ c gs σ', parseConfig E config cliArgs σ = (Ok (c, gs), σ') → gs = [])
  ∧ (group ≠ "default" →
     (∀ g, g ∈ resolveGroups E config → name g ≠ group) →
     parseConfig E config cliArgs σ
     = (Throw (TestRunnerStartError ("Could not find any group named " +:+ group)), σ))
  ∧ (group ≠ "default" →
     ∀ before g after,
       resolveGroups E config = before ++ g :: after →
       (∀ g', g' ∈ before → name g' ≠ group) →
       name g = group →
       ∀ c gs σ', parseConfig E config cliArgs σ = (Ok (c, gs), σ') →
         gs = [if nullish (files g)
               then mkGroup (name g) (setting merged "files") (overlay g)
               else g]
         ∧ setting c "files" = VUndefined).
Proof.
  intros merged Hvalid Hstring Hreserved Hfocus.
  destruct (resolveConfig_groups E config cliArgs Hvalid Hstring)
    as (rooted & Hroot & _ & Hres).
  rewrite (checkReservedName_Ok _ Hreserved) in Hres. simpl in Hres.
  unfold focusGroup in Hres. rewrite Hfocus in Hres.
  split; [|split].
  - intros -> c gs σ' Hrun.
    apply parseConfig_Ok in Hrun as (c0 & Hres0 & _).
    rewrite Hres in Hres0. simpl in Hres0.
    destruct (selectBrowsers E cliArgs _); [|discriminate].
    injection Hres0 as _ <-. reflexivity.
  - intros Hne Hnone. apply String.eqb_neq in Hne.
    rewrite parseConfig_run, Hres, Hne, (find_name_none _ _ Hnone). reflexivity.
  - intros Hne before g after Hgroups Hbefore Hname c gs σ' Hrun.
    apply String.eqb_neq in Hne.
    apply parseConfig_Ok in Hrun as (c0 & Hres0 & Hsettings & _).
    rewrite Hres, Hne, Hgroups, (find_name_first _ _ _ _ Hbefore Hname) in Hres0.
    simpl in Hres0.
    destruct (selectBrowsers E cliArgs _) as [selected|] eqn:Hsel; [|discriminate].
    injection Hres0 as <- <-.
    apply selectBrowsers_Ok in Hsel as [b ->].
    rewrite (setting_rooted _ _ _ Hroot) by congruence. split; [reflexivity|].
    rewrite Hsettings, setting_defaults. apply setting_assign_eq.
Qed.

End focus.

(** On the POSIX host: of two groups named "a" the first is returned, with
    the files of the root configuration. *)
Lemma focus_on_group_witness :
  returnedGroups (parseConfig posix twoGroups (focusOn "a") moduleStore)
  = [mkGroup "a" (VStr "test/**/*.test.js") ∅]
  ∧ setting (returned (parseConfig posix twoGroups (focusOn "a") moduleStore)) "files"
    = VUndefined.
Proof.
  assert (Hreserved : ∀ g, g ∈ resolveGroups posix twoGroups → name g ≠ "default").
  { apply Forall_forall. repeat constructor; discriminate. }
  apply (proj2 (proj2 (focus_on_group posix twoGroups (focusOn "a") moduleStore "a"
                         eq_refl eq_refl Hreserved eq_refl))
           ltac:(discriminate)
           [] (mkGroup "a" VUndefined ∅)
           [mkGroup "b" (VStr "b/*.js") ∅; mkGroup "a" (VStr "second/*.js") ∅]
           eq_refl
           ltac:(intros g' Hg'; apply not_elem_of_nil in Hg'; contradiction)
           eq_refl
           (returned (parseConfig posix twoGroups (focusOn "a") moduleStore))
           (returnedGroups (parseConfig posix twoGroups (focusOn "a") moduleStore))
           (parseConfig posix twoGroups (focusOn "a") moduleStore).2).
  vm_compute. reflexivity.
Defined.

(** ** Launchers *)

Section launchers.
Context (E : Env).

(** The steps before the launchers only write settings. *)
Lemma configAndGroups_fields config cliArgs focused gs :
  configAndGroups E config cliArgs = Ok (focused, gs) →
  ∃ f, focused
       = set_settings f (mergeConfigs [defaultConfig E; config; cliArgsConfig cliArgs]).
Proof.
  intros H. destruct (configAndGroups_Ok E _ _ _ _ H) as (rooted & _ & Hroot & _ & Hfocus).
  apply resolveRootDir_Ok in Hroot as (rootDir & _ & ->).
  set (merged := mergeConfigs _) in *.
  assert (Hport : ∃ f, resolvePort E (assign "rootDir" (VStr (path_resolve E rootDir)) merged)
                       = set_settings f merged).
  { unfold resolvePort. destruct (setting _ "port");
      first [ by exists (insert "rootDir" (VStr (path_resolve E rootDir)))
            | by exists (λ m, insert "port" (int (getPortPromise E 8000))
                                (insert "rootDir" (VStr (path_resolve E rootDir)) m)) ]. }
  destruct Hport as [f Hf]. rewrite Hf in Hfocus.
  unfold focusGroup in Hfocus.
  destruct (CliArgs.group cliArgs) as [group|];
    [|injection Hfocus as <- _; by exists f].
  destruct (String.eqb group "default"); [injection Hfocus as <- _; by exists f|].
  destruct (find _ _); [|discriminate].
  injection Hfocus as <- _. by exists (λ m, insert "files" VUndefined (f m)).
Qed.

Lemma browsers_focused config cliArgs focused gs :
  configAndGroups E config cliArgs = Ok (focused, gs) →
  browsers focused = browsers config.
Proof.
  intros H. apply configAndGroups_fields in H as [f ->]. simpl.
  destruct (browsers config); reflexivity.
Qed.

(** Once the launchers are selected nothing throws.  *)
Lemma parseConfig_selected config cliArgs σ focused gs selected :
  configAndGroups E config cliArgs = Ok (focused, gs) →
  selectBrowsers E cliArgs focused = Ok selected →
  ∃ c σ', parseConfig E config cliArgs σ = (Ok (c, gs), σ')
          ∧ browsers c = browsers selected.
Proof.
  intros Hcg Hsel. rewrite parseConfig_run. unfold resolveConfig.
  rewrite Hcg. simpl. rewrite Hsel. simpl.
  set (c0 := resolveLogger _ _).
  assert (Hb : browsers c0 = browsers selected).
  { unfold c0, resolveLogger, resolveReporters, resolveTestFramework.
    destruct (reporters _), (logger _); reflexivity. }
  destruct (plugins c0); eexists _, _; (split; [reflexivity | exact Hb]).
Qed.

Lemma parseConfig_rejected config cliArgs σ focused gs e :
  configAndGroups E config cliArgs = Ok (focused, gs) →
  selectBrowsers E cliArgs focused = Throw e →
  parseConfig E config cliArgs σ = (Throw e, σ).
Proof.
  intros Hcg Hsel. rewrite parseConfig_run. unfold resolveConfig.
  rewrite Hcg. simpl. rewrite Hsel. reflexivity.
Qed.

Lemma definesBrowsers_focused config cliArgs focused gs :
  configAndGroups E config cliArgs = Ok (focused, gs) →
  definesBrowsers focused = definesBrowsers config.
Proof.
  intros H. unfold definesBrowsers. rewrite (browsers_focused _ _ _ _ H). reflexivity.
Qed.

(** C2. For a resolution that reaches the launchers (the steps before them
    return): with the puppeteer flag, the resolution fails with the
    --puppeteer conflict error when [browsers] is configured with at least
    one entry, and otherwise returns with the launchers [puppeteerLauncher]
    makes for the browser names of the command line; without it and with the
    playwright flag, the same with --playwright and [playwrightLauncher];
    with neither flag, browser names on the command line make the resolution
    fail, and without them a configuration that has no [browsers] is returned
    with exactly the one default launcher. *)
Theorem launcher_negotiation config cliArgs σ focused gs :
  configAndGroups E config cliArgs = Ok (focused, gs) →
  let puppeteer := default false (CliArgs.puppeteer cliArgs) in
  let playwright := default false (CliArgs.playwright cliArgs) in
  let returns launchers :=
    ∃ c σ', parseConfig E config cliArgs σ = (Ok (c, gs), σ')
            ∧ browsers c = Some launchers in
  (puppeteer = true →
     (definesBrowsers config = true →
      parseConfig E config cliArgs σ
      = (Throw (TestRunnerStartError
           "The --puppeteer flag cannot be used when defining browsers manually in your finalConfig."), σ))
     ∧ (definesBrowsers config = false →
        returns (puppeteerLauncher E (CliArgs.browsers cliArgs))))
  ∧ (puppeteer = false → playwright = true →
     (definesBrowsers config = true →
      parseConfig E config cliArgs σ
      = (Throw (TestRunnerStartError
           "The --playwright flag cannot be used when defining browsers manually in your finalConfig."), σ))
     ∧ (definesBrowsers config = false →
        returns (playwrightLauncher E (CliArgs.browsers cliArgs))))
  ∧ (puppeteer = false → playwright = false →
     (CliArgs.browsers cliArgs ≠ None →
      parseConfig E config cliArgs σ
      = (Throw (TestRunnerStartError
           "The browsers option must be used along with the puppeteer or playwright option."), σ))
     ∧ (CliArgs.browsers cliArgs = None → browsers config = None →
        returns [chromeLauncher])).
Proof.
  intros Hcg puppeteer playwright returns.
  pose proof (definesBrowsers_focused _ _ _ _ Hcg) as Hdef.
  pose proof (browsers_focused _ _ _ _ Hcg) as Hb.
  split; [|split].
  - intros Hpu. split; intros Hconf.
    + apply (parseConfig_rejected _ _ _ _ _ _ Hcg).
      unfold selectBrowsers. fold puppeteer. rewrite Hpu, Hdef, Hconf. reflexivity.
    + destruct (parseConfig_selected config cliArgs σ focused gs
                  (set_browsers (Some (puppeteerLauncher E (CliArgs.browsers cliArgs)))
                     focused) Hcg) as (c & σ' & Hrun & Hc).
      * unfold selectBrowsers. fold puppeteer. rewrite Hpu, Hdef, Hconf. reflexivity.
      * exists c, σ'. split; assumption.
  - intros Hpu Hpl. split; intros Hconf.
    + apply (parseConfig_rejected _ _ _ _ _ _ Hcg).
      unfold selectBrowsers. fold puppeteer playwright.
      rewrite Hpu, Hpl, Hdef, Hconf. reflexivity.
    + destruct (parseConfig_selected config cliArgs σ focused gs
                  (set_browsers (Some (playwrightLauncher E (CliArgs.browsers cliArgs)))
                     focused) Hcg) as (c & σ' & Hrun & Hc).
      * unfold selectBrowsers. fold puppeteer playwright.
        rewrite Hpu, Hpl, Hdef, Hconf. reflexivity.
      * exists c, σ'. split; assumption.
  - intros Hpu Hpl. split.
    + intros Hnames. apply (parseConfig_rejected _ _ _ _ _ _ Hcg).
      unfold selectBrowsers. fold puppeteer playwright. rewrite Hpu, Hpl.
      destruct (CliArgs.browsers cliArgs); [reflexivity | contradiction].
    + intros Hnames Hnone.
      destruct (parseConfig_selected config cliArgs σ focused gs
                  (set_browsers (Some [chromeLauncher]) focused) Hcg)
        as (c & σ' & Hrun & Hc).
      * unfold selectBrowsers. fold puppeteer playwright.
        rewrite Hpu, Hpl, Hnames, Hb, Hnone. reflexivity.
      * exists c, σ'. split; assumption.
Qed.

End launchers.

(** On the POSIX host: the five outcomes of the launcher selection. *)
Lemma launcher_negotiation_witness :
  parseConfig posix oneBrowser puppeteerFirefox moduleStore
  = (Throw (TestRunnerStartError
       "The --puppeteer flag cannot be used when defining browsers manually in your finalConfig."),
     moduleStore)
  ∧ (∃ c σ', parseConfig posix emptyConfig puppeteerFirefox moduleStore = (Ok (c, []), σ')
             ∧ browsers c = Some [launcher "puppeteer" "firefox"])
  ∧ (∃ c σ', parseConfig posix emptyConfig playwrightOnly moduleStore = (Ok (c, []), σ')
             ∧ browsers c = Some [launcher "playwright" "chromium"])
  ∧ parseConfig posix emptyConfig browsersOnly moduleStore
    = (Throw (TestRunnerStartError
         "The browsers option must be used along with the puppeteer or playwright option."),
       moduleStore)
  ∧ (∃ c σ', parseConfig posix emptyConfig CliArgs.empty moduleStore = (Ok (c, []), σ')
             ∧ browsers c = Some [chromeLauncher]).
Proof.
  assert (H1 : configAndGroups posix oneBrowser puppeteerFirefox = Ok
            (returned (configAndGroups posix oneBrowser puppeteerFirefox, moduleStore), []))
    by (vm_compute; reflexivity).
  assert (H2 : configAndGroups posix emptyConfig puppeteerFirefox = Ok
            (returned (configAndGroups posix emptyConfig puppeteerFirefox, moduleStore), []))
    by (vm_compute; reflexivity).
  assert (H3 : configAndGroups posix emptyConfig playwrightOnly = Ok
            (returned (configAndGroups posix emptyConfig playwrightOnly, moduleStore), []))
    by (vm_compute; reflexivity).
  assert (H4 : configAndGroups posix emptyConfig browsersOnly = Ok
            (returned (configAndGroups posix emptyConfig browsersOnly, moduleStore), []))
    by (vm_compute; reflexivity).
  assert (H5 : configAndGroups posix emptyConfig CliArgs.empty = Ok
            (returned (configAndGroups posix emptyConfig CliArgs.empty, moduleStore), []))
    by (vm_compute; reflexivity).
  repeat apply conj.
  - apply (proj1 (proj1 (launcher_negotiation posix _ _ moduleStore _ _ H1) eq_refl)).
    reflexivity.
  - apply (proj2 (proj1 (launcher_negotiation posix _ _ moduleStore _ _ H2) eq_refl)).
    reflexivity.
  - apply (proj2 (proj1 (proj2 (launcher_negotiation posix _ _ moduleStore _ _ H3))
                    eq_refl eq_refl)).
    reflexivity.
  - apply (proj1 (proj2 (proj2 (launcher_negotiation posix _ _ moduleStore _ _ H4))
                    eq_refl eq_refl)).
    discriminate.
  - apply (proj2 (proj2 (proj2 (launcher_negotiation posix _ _ moduleStore _ _ H5))
                    eq_refl eq_refl)); reflexivity.
Defined.

(** C9. For a resolution that reaches the launchers, without the puppeteer
    flag, the playwright flag and browser names on the command line: a
    [browsers] array that the user configuration defines is returned as it
    is, the empty array too; the default launcher is not added. The
    resolution of [{ browsers: [] }] alone does return, with no launcher. *)
Theorem configured_browsers_kept (E : Env) :
  (∀ config cliArgs σ focused gs launchers,
     configAndGroups E config cliArgs = Ok (focused, gs) →
     browsers config = Some launchers →
     default false (CliArgs.puppeteer cliArgs) = false →
     default false (CliArgs.playwright cliArgs) = false →
     CliArgs.browsers cliArgs = None →
     ∃ c σ', parseConfig E config cliArgs σ = (Ok (c, gs), σ')
             ∧ browsers c = Some launchers)
  ∧ (∀ σ, ∃ c gs σ', parseConfig E noBrowsers CliArgs.empty σ = (Ok (c, gs), σ')
                     ∧ browsers c = Some []).
Proof.
  split.
  - intros config cliArgs σ focused gs launchers Hcg Hb Hpu Hpl Hnames.
    destruct (parseConfig_selected E config cliArgs σ focused gs focused Hcg)
      as (c & σ' & Hrun & Hc).
    + unfold selectBrowsers.
      rewrite Hpu, Hpl, Hnames, (browsers_focused E _ _ _ _ Hcg), Hb. reflexivity.
    + exists c, σ'. split; [exact Hrun|].
      rewrite Hc, (browsers_focused E _ _ _ _ Hcg). exact Hb.
  - intros σ.
    assert (Hrun : match parseConfig E noBrowsers CliArgs.empty σ with
                   | (Ok (c, _), _) => browsers c = Some []
                   | (Throw _, _) => False
                   end) by (vm_compute; reflexivity).
    destruct (parseConfig E noBrowsers CliArgs.empty σ) as [[[c gs]|e] σ'];
      [eauto | contradiction].
Qed.

(** On the POSIX host: [{ browsers: [] }] is returned with no launcher. *)
Lemma configured_browsers_kept_witness :
  ∃ c σ', parseConfig posix noBrowsers CliArgs.empty moduleStore = (Ok (c, []), σ')
          ∧ browsers c = Some [].
Proof.
  assert (Hreach : configAndGroups posix noBrowsers CliArgs.empty = Ok
            (returned (configAndGroups posix noBrowsers CliArgs.empty, moduleStore), []))
    by (vm_compute; reflexivity).
  apply (proj1 (configured_browsers_kept posix) _ _ moduleStore _ _ [] Hreach);
    reflexivity.
Defined.

(** ** The default logger *)

Section logger.
Context (E : Env).

Lemma logger_focused config cliArgs focused gs :
  configAndGroups E config cliArgs = Ok (focused, gs) →
  logger focused = override (logger config) (logger (CliArgs.config cliArgs)).
Proof.
  intros H. apply configAndGroups_fields in H as [f ->]. simpl.
  destruct (logger config); reflexivity.
Qed.

(** C10. When neither the user configuration nor the command line has a
    logger, the returned logger is [new TestRunnerLogger(config.debug)] for
    the user configuration [config], the first argument of [parseConfig]:
    the merged [debug] is not read. With [debug] given on the command line
    only, the returned configuration has [debug] true and a logger made with
    [undefined]. *)
Theorem default_logger_debug :
  (∀ config cliArgs σ c gs σ',
     parseConfig E config cliArgs σ = (Ok (c, gs), σ') →
     logger config = None →
     logger (CliArgs.config cliArgs) = None →
     logger c = Some (TestRunnerLogger (setting config "debug")))
  ∧ (∀ σ, ∃ c gs σ',
       parseConfig E emptyConfig debugFlag σ = (Ok (c, gs), σ')
       ∧ setting c "debug" = VBool true
       ∧ logger c = Some (TestRunnerLogger VUndefined)).
Proof.
  split.
  - intros config cliArgs σ c gs σ' Hrun Huser Hcli.
    apply parseConfig_Ok in Hrun as (c0 & Hres & _ & r & ->).
    apply resolveConfig_Ok in Hres as (focused & selected & Hcg & Hsel & ->).
    apply selectBrowsers_Ok in Hsel as [b ->].
    pose proof (logger_focused _ _ _ _ Hcg) as Hlog.
    rewrite Huser, Hcli in Hlog. simpl in Hlog.
    unfold resolveLogger, resolveReporters, resolveTestFramework.
    destruct (reporters _); simpl; rewrite Hlog; reflexivity.
  - intros σ.
    assert (Hrun : match parseConfig E emptyConfig debugFlag σ with
                   | (Ok (c, _), _) =>
                       setting c "debug" = VBool true
                       ∧ logger c = Some (TestRunnerLogger VUndefined)
                   | (Throw _, _) => False
                   end) by (vm_compute; split; reflexivity).
    destruct (parseConfig E emptyConfig debugFlag σ) as [[[c gs]|e] σ'];
      [eauto | contradiction].
Qed.

End logger.

(** On the POSIX host: [--debug] does not reach the default logger. *)
Lemma default_logger_debug_witness :
  logger (returned (parseConfig posix port9000 debugFlag moduleStore))
  = Some (TestRunnerLogger VUndefined).
Proof.
  apply (proj1 (default_logger_debug posix) port9000 debugFlag moduleStore _
           (returnedGroups (parseConfig posix port9000 debugFlag moduleStore))
           (parseConfig posix port9000 debugFlag moduleStore).2).
  - vm_compute. reflexivity.
  - reflexivity.
  - reflexivity.
Defined.

(** ** The plugin list *)

Section plugins.
Context (E : Env).

Lemma override_default (user cli : option loc) :
  override (override (Some defaultPlugins) user) cli
  = Some (default defaultPlugins (override user cli)).
Proof. destruct user, cli; reflexivity. Qed.

(** Before the plugin list is built, the configuration holds the array of
    the last source that has one: the command line's, else the user's, else
    the array of [defaultConfig]. *)
Lemma plugins_resolved config cliArgs c0 gs :
  resolveConfig E config cliArgs = Ok (c0, gs) →
  plugins c0
  = Some (default defaultPlugins
            (override (plugins config) (plugins (CliArgs.config cliArgs)))).
Proof.
  intros H. apply resolveConfig_Ok in H as (focused & selected & Hcg & Hsel & ->).
  apply selectBrowsers_Ok in Hsel as [b ->].
  apply configAndGroups_fields in Hcg as [f ->].
  rewrite <- override_default.
  unfold resolveLogger, resolveReporters, resolveTestFramework.
  destruct (reporters _), (logger _); reflexivity.
Qed.

Lemma parseConfig_resolved config cliArgs σ c0 gs :
  resolveConfig E config cliArgs = Ok (c0, gs) →
  let r := default defaultPlugins
             (override (plugins config) (plugins (CliArgs.config cliArgs))) in
  parseConfig E config cliArgs σ
  = (Ok (set_plugins (Some r) c0, gs), alter (assembled c0) r σ).
Proof.
  intros H r. rewrite parseConfig_run, H, (plugins_resolved _ _ _ _ H). reflexivity.
Qed.

(** C1. A resolution that reaches the plugin list returns: building the list
    never throws. When the user configuration holds a plugin array with
    contents [P] (and the command line none), the returned configuration
    holds that same array, and its contents are, front to back: the esbuild
    plugin if [esbuildTarget] is truthy, the viewport, media and user-agent
    plugins, the syntax checker, [P] in its order, and the node-resolve
    plugin if [nodeResolve] is truthy. With both options on, that is
    [esbuild; viewport; media; user-agent; syntax-checker; P...; node-resolve]. *)
Theorem plugin_pipeline config cliArgs σ c0 gs :
  resolveConfig E config cliArgs = Ok (c0, gs) →
  (∃ c σ', parseConfig E config cliArgs σ = (Ok (c, gs), σ'))
  ∧ (∀ r P,
       plugins config = Some r →
       plugins (CliArgs.config cliArgs) = None →
       σ !! r = Some P →
       ∃ c σ',
         parseConfig E config cliArgs σ = (Ok (c, gs), σ')
         ∧ plugins c = Some r
         ∧ σ' !! r
           = Some ((if truthy (setting c "esbuildTarget")
                    then [esbuildPlugin (setting c "esbuildTarget")] else [])
                   ++ [setViewportPlugin; emulateMediaPlugin; setUserAgentPlugin;
                       syntaxChecker]
                   ++ P
                   ++ (if nodeResolveOn c
                       then [nodeResolvePlugin (setting c "rootDir")
                               (setting c "preserveSymlinks") (userOptions c)]
                       else []))
         ∧ (truthy (setting c "esbuildTarget") = true → nodeResolveOn c = true →
            σ' !! r
            = Some (esbuildPlugin (setting c "esbuildTarget")
                    :: setViewportPlugin :: emulateMediaPlugin :: setUserAgentPlugin
                    :: syntaxChecker
                    :: P ++ [nodeResolvePlugin (setting c "rootDir")
                               (setting c "preserveSymlinks") (userOptions c)]))).
Proof.
  intros Hres. pose proof (parseConfig_resolved config cliArgs σ c0 gs Hres) as Hrun.
  simpl in Hrun. split; [eauto|].
  intros r P Huser Hcli HP. rewrite Huser, Hcli in Hrun. simpl in Hrun.
  eexists _, _. split; [exact Hrun|]. split; [reflexivity|].
  assert (Hlist : alter (assembled c0) r σ !! r = Some (assembled c0 P)).
  { rewrite list_lookup_alter. destruct (decide (r = r)); [|contradiction].
    rewrite HP. reflexivity. }
  split; [exact Hlist|].
  intros Hesbuild Hnode. rewrite Hlist. unfold assembled.
  change (setting (set_plugins (Some r) c0)) with (setting c0) in *.
  change (nodeResolveOn (set_plugins (Some r) c0)) with (nodeResolveOn c0) in *.
  rewrite Hesbuild, Hnode. reflexivity.
Qed.



End plugins.

(** On the POSIX host: one user plugin, node resolution and an esbuild
    target. *)
Lemma plugin_pipeline_witness :
  ∃ c σ',
    parseConfig posix withUserPlugin CliArgs.empty userStore = (Ok (c, []), σ')
    ∧ plugins c = Some userPlugins
    ∧ σ' !! userPlugins
      = Some [esbuildPlugin (VStr "es2020"); setViewportPlugin; emulateMediaPlugin;
              setUserAgentPlugin; syntaxChecker; plugin "P";
              nodeResolvePlugin (VStr "/work") VUndefined None].
Proof.
  assert (Hres : resolveConfig posix withUserPlugin CliArgs.empty = Ok
            (returned (resolveConfig posix withUserPlugin CliArgs.empty, userStore), []))
    by (vm_compute; reflexivity).
  destruct (proj2 (plugin_pipeline posix withUserPlugin CliArgs.empty userStore _ _ Hres)
              userPlugins [plugin "P"] eq_refl eq_refl eq_refl)
    as (c & σ' & Hrun & Hplugins & _ & Hlist).
  exists c, σ'. split; [exact Hrun|]. split; [exact Hplugins|].
  assert (Hc : c = returned (parseConfig posix withUserPlugin CliArgs.empty userStore))
    by (rewrite Hrun; reflexivity).
  rewrite Hlist; rewrite Hc; vm_compute; reflexivity.
Defined.


(** * Further properties of parseConfig *)

Section resolution.
Context (E : Env).

#[local] Abbreviation merged config cliArgs :=
  (mergeConfigs [defaultConfig E; config; cliArgsConfig cliArgs]).

(** What the steps after the merge can have done to the merged
    configuration. *)
Lemma resolved_shape config cliArgs c0 gs :
  resolveConfig E config cliArgs = Ok (c0, gs) →
  ∃ f b focused,
    configAndGroups E config cliArgs = Ok (focused, gs)
    ∧ focused = set_settings f (merged config cliArgs)
    ∧ selectBrowsers E cliArgs focused = Ok (set_browsers b focused)
    ∧ c0 = resolveLogger config
             (resolveReporters (resolveTestFramework E (set_browsers b focused))).
Proof.
  intros H. apply resolveConfig_Ok in H as (focused & selected & Hcg & Hsel & ->).
  destruct (selectBrowsers_Ok E _ _ _ Hsel) as [b ->].
  destruct (configAndGroups_fields E _ _ _ _ Hcg) as [f Hf].
  exists f, b, focused. repeat split; assumption.
Qed.

Lemma selectBrowsers_defined cliArgs c c' :
  selectBrowsers E cliArgs c = Ok c' → is_Some (browsers c').
Proof.
  unfold selectBrowsers. intros H.
  destruct (default false (CliArgs.puppeteer cliArgs)).
  { destruct (definesBrowsers c); [discriminate|]. injection H as <-. simpl. eauto. }
  destruct (default false (CliArgs.playwright cliArgs)).
  { destruct (definesBrowsers c); [discriminate|]. injection H as <-. simpl. eauto. }
  destruct (CliArgs.browsers cliArgs); [discriminate|].
  destruct (browsers c) eqn:Hb; injection H as <-; simpl; eauto.
Qed.

(** X1. A configuration that is returned is complete: it has launchers,
    reporters, a logger, a test framework with a [path] property and a plugin
    array. *)
Theorem returned_config_complete config cliArgs σ c gs σ' :
  parseConfig E config cliArgs σ = (Ok (c, gs), σ') →
  is_Some (browsers c)
  ∧ is_Some (reporters c)
  ∧ is_Some (logger c)
  ∧ (∃ framework, testFramework c = Some framework ∧ is_Some (framework !! "path"))
  ∧ is_Some (plugins c).
Proof.
  intros Hrun. apply parseConfig_Ok in Hrun as (c0 & Hres & _ & r & ->).
  apply resolveConfig_Ok in Hres as (focused & selected & _ & Hsel & ->).
  apply selectBrowsers_defined in Hsel.
  unfold resolveLogger, resolveReporters, resolveTestFramework.
  destruct (reporters selected) eqn:Hrep, (logger selected) eqn:Hlog; simpl;
    rewrite ?Hrep, ?Hlog; simpl; rewrite ?Hrep, ?Hlog;
    (repeat split; eauto;
     eexists; split; [reflexivity|];
     rewrite lookup_union; destruct (default ∅ (testFramework selected) !! "path");
     rewrite lookup_singleton_eq; simpl; eauto).
Qed.

(** X2. The test framework of a returned configuration is the merged one
    with a default for [path] only: every property the merged test framework
    has, [path] included, is returned as it is, and [path] is the mocha
    autorun script exactly when the merged test framework has no [path]
    property. *)
Theorem test_framework_defaults_path config cliArgs σ c gs σ' :
  parseConfig E config cliArgs σ = (Ok (c, gs), σ') →
  let given := default ∅ (testFramework (merged config cliArgs)) in
  ∃ framework,
    testFramework c = Some framework
    ∧ (∀ key v, given !! key = Some v → framework !! key = Some v)
    ∧ (∀ key, key ≠ "path" → framework !! key = given !! key)
    ∧ (given !! "path" = None → framework !! "path" = Some (VStr (autorun E))).
Proof.
  intros Hrun given. apply parseConfig_Ok in Hrun as (c0 & Hres & _ & r & ->).
  apply resolved_shape in Hres as (f & b & focused & _ & -> & _ & ->).
  exists (given ∪ {["path" := VStr (autorun E)]}). split.
  { unfold resolveLogger, resolveReporters.
    destruct (reporters _), (logger _); reflexivity. }
  split; [|split].
  - intros key v Hkey. apply lookup_union_Some_l. exact Hkey.
  - intros key Hne. rewrite lookup_union, lookup_singleton_ne by congruence.
    destruct (given !! key); reflexivity.
  - intros Hnone. rewrite lookup_union, Hnone, lookup_singleton_eq. reflexivity.
Qed.

(** X3. The reporters of a returned configuration are the merged ones when
    the merged configuration has a reporter list, be it empty, and the single
    default reporter otherwise. *)
Theorem reporters_default config cliArgs σ c gs σ' :
  parseConfig E config cliArgs σ = (Ok (c, gs), σ') →
  reporters c = Some (default [defaultReporter] (reporters (merged config cliArgs))).
Proof.
  intros Hrun. apply parseConfig_Ok in Hrun as (c0 & Hres & _ & r & ->).
  apply resolved_shape in Hres as (f & b & focused & _ & -> & _ & ->).
  unfold resolveLogger, resolveReporters, resolveTestFramework. simpl.
  destruct (override _ (reporters (CliArgs.config cliArgs))) eqn:Hrep; simpl;
    rewrite ?Hrep; destruct (override _ (logger (CliArgs.config cliArgs)));
    simpl; rewrite ?Hrep; reflexivity.
Qed.


(** X5. Lines 199-201: a final configuration that holds no plugin array gets
    a new one. The new array is at an address no array had, the arrays of the
    store are unchanged, and the new array holds the built-in plugins only:
    esbuild if [esbuildTarget] is truthy, the three command plugins, the
    syntax checker, and node-resolve if [nodeResolve] is truthy. *)
Theorem new_array_when_none finalConfig σ :
  plugins finalConfig = None →
  ∃ c σ',
    assemblePlugins finalConfig σ = (Ok c, σ')
    ∧ plugins c = Some (length σ)
    ∧ σ !! length σ = None
    ∧ (∀ r, r < length σ → σ' !! r = σ !! r)
    ∧ σ' !! length σ
      = Some ((if truthy (setting finalConfig "esbuildTarget")
               then [esbuildPlugin (setting finalConfig "esbuildTarget")] else [])
              ++ [setViewportPlugin; emulateMediaPlugin; setUserAgentPlugin;
                  syntaxChecker]
              ++ (if nodeResolveOn finalConfig
                  then [nodeResolvePlugin (setting finalConfig "rootDir")
                          (setting finalConfig "preserveSymlinks")
                          (userOptions finalConfig)]
                  else [])).
Proof.
  intros Hnone. rewrite assemblePlugins_run, Hnone.
  eexists _, _. split; [reflexivity|]. split; [reflexivity|].
  split; [apply lookup_ge_None; lia|]. split.
  - intros r Hr. apply lookup_app_l. exact Hr.
  - rewrite lookup_app_r by lia. rewrite Nat.sub_diag. reflexivity.
Qed.

(** X6. When [nodeResolve] of the returned configuration is truthy, the last
    plugin of the returned list is the node-resolve plugin, made with the root
    directory of the returned configuration, which is absolute, with its
    [preserveSymlinks], and with [nodeResolve] itself as options when that is
    an object ([undefined] when it is [true]). *)
Theorem node_resolve_is_last config cliArgs σ c gs σ' r :
  parseConfig E config cliArgs σ = (Ok (c, gs), σ') →
  nodeResolveOn c = true →
  plugins c = Some r →
  is_Some (σ !! r) →
  ∃ rootDir,
    setting c "rootDir" = VStr rootDir
    ∧ isAbsolute rootDir = true
    ∧ last <$> σ' !! r
      = Some (Some (nodeResolvePlugin (VStr rootDir) (setting c "preserveSymlinks")
                      match nodeResolve c with
                      | Some (NodeResolveOptions options) => Some options
                      | _ => None
                      end)).
Proof.
  intros Hrun Hon Hr [P HP].
  destruct (parseConfig_Ok E _ _ _ _ _ _ Hrun) as (c0 & Hres & Hsettings & _).
  destruct (resolveConfig_root_port E _ _ _ _ Hres) as [(d & _ & Hroot) _].
  rewrite (parseConfig_resolved E config cliArgs σ c0 gs Hres) in Hrun.
  injection Hrun as <- <-. simpl in Hr. injection Hr as <-.
  exists (path_resolve E d). split; [exact Hroot|].
  split; [apply path_resolve_absolute|].
  rewrite list_lookup_alter. destruct (decide _); [|contradiction].
  rewrite HP. simpl. unfold assembled.
  change (nodeResolveOn (set_plugins _ c0)) with (nodeResolveOn c0) in Hon.
  rewrite Hon, Hroot, !app_assoc, last_snoc. reflexivity.
Qed.

Lemma focusGroup_Ok cliArgs c gs c' gs' :
  focusGroup cliArgs c gs = Ok (c', gs') →
  match CliArgs.group cliArgs with
  | None => c' = c ∧ gs' = gs
  | Some group =>
      if String.eqb group "default" then c' = c ∧ gs' = []
      else ∃ found,
             found ∈ gs ∧ name found = group
             ∧ c' = assign "files" VUndefined c
             ∧ gs' = [if nullish (files found)
                      then mkGroup (name found) (setting c "files") (overlay found)
                      else found]
  end.
Proof.
  unfold focusGroup. destruct (CliArgs.group cliArgs) as [group|].
  - destruct (String.eqb group "default"); [intros [= <- <-]; split; reflexivity|].
    destruct (find _ gs) as [found|] eqn:Hfind; [|discriminate].
    intros [= <- <-]. apply find_some in Hfind as [Hin Hname].
    exists found. repeat split.
    + apply list_elem_of_In. exact Hin.
    + apply String.eqb_eq. exact Hname.
  - intros [= <- <-]. split; reflexivity.
Qed.

Lemma checkReservedName_passed gs g :
  checkReservedName gs = Ok () → g ∈ gs → name g ≠ "default".
Proof.
  unfold checkReservedName. intros Hcheck Hin.
  destruct (find _ gs) eqn:Hfind; [discriminate|].
  apply list_elem_of_In in Hin.
  pose proof (find_none _ _ Hfind g Hin) as Hg. simpl in Hg.
  apply String.eqb_neq. exact Hg.
Qed.


(** X8. With a focus on the command line a resolution returns at most one
    group: none for the focus "default", and otherwise one group, which bears
    the name of the focus and is, but for its files, a group of the user's
    [groups]. *)
Theorem focus_returns_one_group config cliArgs σ c gs σ' group :
  parseConfig E config cliArgs σ = (Ok (c, gs), σ') →
  CliArgs.group cliArgs = Some group →
  if String.eqb group "default" then gs = []
  else ∃ found focused,
         gs = [focused]
         ∧ found ∈ resolveGroups E config
         ∧ name focused = group
         ∧ name focused = name found
         ∧ overlay focused = overlay found.
Proof.
  intros Hrun Hgroup. apply parseConfig_Ok in Hrun as (c0 & Hres & _).
  destruct (resolved_shape _ _ _ _ Hres) as (f & b & focused & Hcg & _).
  destruct (configAndGroups_Ok E _ _ _ _ Hcg) as (rooted & _ & Hroot & _ & Hfocus).
  apply focusGroup_Ok in Hfocus. rewrite Hgroup in Hfocus.
  destruct (String.eqb group "default"); [exact (proj2 Hfocus)|].
  destruct Hfocus as (found & Hin & Hname & _ & ->).
  rewrite (resolveGroups_rooted E _ _ Hroot), resolveGroups_merged in Hin.
  eexists found, _. split; [reflexivity|]. split; [exact Hin|].
  destruct (nullish (files found)); simpl; auto.
Qed.

(** X9. No group named "default" is ever returned, with or without a focus. *)
Theorem no_default_group_returned config cliArgs σ c gs σ' g :
  parseConfig E config cliArgs σ = (Ok (c, gs), σ') →
  g ∈ gs → name g ≠ "default".
Proof.
  intros Hrun Hin. apply parseConfig_Ok in Hrun as (c0 & Hres & _).
  destruct (resolved_shape _ _ _ _ Hres) as (f & b & focused & Hcg & _).
  destruct (configAndGroups_Ok E _ _ _ _ Hcg) as (rooted & _ & _ & Hcheck & Hfocus).
  apply focusGroup_Ok in Hfocus.
  destruct (CliArgs.group cliArgs) as [group|].
  - destruct (String.eqb group "default").
    + destruct Hfocus as [_ ->]. apply not_elem_of_nil in Hin. contradiction.
    + destruct Hfocus as (found & Hfound & _ & _ & ->).
      apply list_elem_of_singleton in Hin as ->.
      pose proof (checkReservedName_passed _ _ Hcheck Hfound) as Hname.
      destruct (nullish (files found)); exact Hname.
  - destruct Hfocus as [_ ->]. exact (checkReservedName_passed _ _ Hcheck Hin).
Qed.

Lemma selectBrowsers_Throw cliArgs c e :
  selectBrowsers E cliArgs c = Throw e →
  e = TestRunnerStartError
        "The --puppeteer flag cannot be used when defining browsers manually in your finalConfig."
  ∨ e = TestRunnerStartError
          "The --playwright flag cannot be used when defining browsers manually in your finalConfig."
  ∨ e = TestRunnerStartError
          "The browsers option must be used along with the puppeteer or playwright option.".
Proof.
  unfold selectBrowsers. intros H.
  destruct (default false (CliArgs.puppeteer cliArgs)).
  { destruct (definesBrowsers c); [|discriminate]. injection H as <-. tauto. }
  destruct (default false (CliArgs.playwright cliArgs)).
  { destruct (definesBrowsers c); [|discriminate]. injection H as <-. tauto. }
  destruct (CliArgs.browsers cliArgs); [injection H as <-; tauto|].
  destruct (browsers c); discriminate.
Qed.

(** X10. The exceptions of a resolution: a [TestRunnerStartError] for a
    wrong-typed primitive setting, a missing root directory, a focus on a
    group that does not exist and the three launcher conflicts; a plain
    [Error] for a wrong-typed [esbuildTarget] or [files] and for a group named
    "default"; nothing else is thrown. *)
Theorem thrown_errors config cliArgs σ e σ' :
  parseConfig E config cliArgs σ = (Throw e, σ') →
  (∃ key type, Primitive key type ∈ checks
     ∧ e = TestRunnerStartError
             ("Configuration error: The " +:+ key +:+ " setting should be a "
              +:+ type +:+ "."))
  ∨ e = Error "Configuration error: The esbuildTarget setting should be a string or array."
  ∨ e = Error "Configuration error: The files setting should be a string or an array."
  ∨ e = TestRunnerStartError "No rootDir specified."
  ∨ e = Error ("Cannot create a group named " +:+ dquote +:+ "default" +:+ dquote
               +:+ ". This named is reserved by the test runner.")
  ∨ (∃ group, CliArgs.group cliArgs = Some group
       ∧ e = TestRunnerStartError ("Could not find any group named " +:+ group))
  ∨ e = TestRunnerStartError
          "The --puppeteer flag cannot be used when defining browsers manually in your finalConfig."
  ∨ e = TestRunnerStartError
          "The --playwright flag cannot be used when defining browsers manually in your finalConfig."
  ∨ e = TestRunnerStartError
          "The browsers option must be used along with the puppeteer or playwright option.".
Proof.
  rewrite parseConfig_run.
  destruct (resolveConfig E config cliArgs) as [[c0 gs]|e0] eqn:Hres.
  { destruct (plugins c0); discriminate. }
  intros [= -> _]. unfold resolveConfig, configAndGroups in Hres.
  rewrite validateConfig_find in Hres.
  destruct (find _ checks) as [ch|] eqn:Hfind.
  { injection Hres as <-. apply find_some in Hfind as [Hin _].
    apply list_elem_of_In in Hin. destruct ch as [key type|key expected].
    - left. exists key, type. split; [exact Hin | reflexivity].
    - unfold checks in Hin. rewrite !elem_of_app in Hin.
      destruct Hin as [Hin|[Hin|[Hin|Hin]]];
        try (apply list_elem_of_fmap in Hin as (k & Hk & _); discriminate).
      apply elem_of_cons in Hin as [[= -> ->]|Hin]; [right; left; reflexivity|].
      apply list_elem_of_singleton in Hin as [= -> ->]. right; right; left. reflexivity. }
  simpl in Hres. unfold resolveRootDir in Hres at 1.
  destruct (setting _ "rootDir") eqn:Hroot;
    try (injection Hres as <-; do 3 right; left; reflexivity).
  simpl in Hres. unfold checkReservedName in Hres at 1.
  destruct (find _ (resolveGroups _ _));
    [injection Hres as <-; do 4 right; left; reflexivity|].
  simpl in Hres. unfold focusGroup in Hres at 1.
  destruct (CliArgs.group cliArgs) as [group|] eqn:Hgroup.
  - destruct (String.eqb group "default").
    + simpl in Hres. destruct (selectBrowsers E cliArgs _) eqn:Hsel; [discriminate|].
      injection Hres as <-. do 6 right. exact (selectBrowsers_Throw _ _ _ Hsel).
    + destruct (find _ (resolveGroups _ _)).
      * simpl in Hres. destruct (selectBrowsers E cliArgs _) eqn:Hsel; [discriminate|].
      injection Hres as <-. do 6 right. exact (selectBrowsers_Throw _ _ _ Hsel).
      * injection Hres as <-. do 5 right. left. exists group.
        split; reflexivity.
  - simpl in Hres. destruct (selectBrowsers E cliArgs _) eqn:Hsel; [discriminate|].
      injection Hres as <-. do 6 right. exact (selectBrowsers_Throw _ _ _ Hsel).
Qed.

(** X11. A wrong-typed setting of the merged configuration is reported before
    anything else: if some check fails on the merged configuration, the
    resolution throws the error of the first check that fails, whatever the
    groups, the focus and the launcher flags, and the store is as it was. *)
Theorem invalid_setting_reported_first config cliArgs σ ch :
  find (offends (settings (merged config cliArgs))) checks = Some ch →
  parseConfig E config cliArgs σ = (Throw (failure ch), σ).
Proof.
  intros Hfind. rewrite parseConfig_run. unfold resolveConfig, configAndGroups.
  rewrite validateConfig_find, Hfind. reflexivity.
Qed.

End resolution.

(** * Further properties of the validator and of the defaults *)

Lemma passes_kind (m m' : gmap string value) ch :
  kind (get m (checked_key ch)) = kind (get m' (checked_key ch)) →
  passes m ch = passes m' ch.
Proof.
  unfold kind. intros [= Hnull Htype Harray].
  destruct ch as [key type|key expected]; simpl in *;
    rewrite Hnull, Htype, ?Harray; reflexivity.
Qed.

(** X12. Validation looks at the kind of a value only: whether it is null or
    undefined, its [typeof], whether it is an array. Two configurations
    whose settings have the same kind, key by key, get the same verdict: the
    elements of an array, the characters of a string and the value of a number
    are never inspected. *)
Theorem validation_by_kind (m m' : gmap string value) :
  (∀ key, kind (get m key) = kind (get m' key)) →
  validateSettings m = validateSettings m'.
Proof.
  intros Hkind. rewrite !validateSettings_checks, !forEach_runCheck.
  assert (Hfind : ∀ l, find (offends m) l = find (offends m') l).
  { induction l as [|ch l IH]; simpl; [reflexivity|].
    unfold offends at 1 3. rewrite (passes_kind m m' ch (Hkind _)), IH. reflexivity. }
  rewrite Hfind. reflexivity.
Qed.

(** [files: [5, null]] is as valid as [files: []]. *)
Lemma validation_by_kind_witness :
  validateSettings oddFiles = validateSettings noFiles.
Proof.
  apply validation_by_kind. intros key. unfold oddFiles, noFiles, get.
  destruct (decide (key = "files")) as [->|Hne].
  - rewrite !lookup_singleton_eq. reflexivity.
  - rewrite !lookup_singleton_ne by congruence. reflexivity.
Defined.

Lemma isInteger_Qeq (q q' : Q) :
  (q == q')%Q → isInteger (VNum (Finite q)) = isInteger (VNum (Finite q')).
Proof.
  unfold Qeq, isInteger. destruct q as [n d], q' as [n' d']. simpl. intros Heq.
  apply eq_iff_eq_true. rewrite !Z.eqb_eq, !Z.mod_divide by lia.
  split; intros [k Hk]; exists k; nia.
Qed.

(** X13. The default concurrency is [Math.max(1, cpus / 2)] with an exact
    division: it is at least 1 in every environment, and it is an integer
    only when the machine has at most two processors or an even number of
    them (three processors give 1.5). It passes validation all the same. *)
Theorem default_concurrency (E : Env) :
  ∃ q, setting (defaultConfig E) "concurrency" = VNum (Finite q)
       ∧ (q == Qmax 1 (inject_Z (Z.of_nat (cpus E)) / 2))%Q
       ∧ (1 <= q)%Q
       ∧ (isInteger (VNum (Finite q)) = true ↔ cpus E ≤ 2 ∨ Nat.Even (cpus E))
       ∧ passes (settings (defaultConfig E)) (Primitive "concurrency" "number") = true.
Proof.
  set (half := (inject_Z (Z.of_nat (cpus E)) / 2)%Q).
  exists (Qred (Qmax 1 half)).
  assert (Hred : (Qred (Qmax 1 half) == Qmax 1 half)%Q) by apply Qred_correct.
  assert (Hhalf : (half == Z.of_nat (cpus E) # 2)%Q).
  { unfold half, Qeq, Qdiv, Qmult, Qinv, inject_Z. simpl. lia. }
  split; [reflexivity|]. split; [exact Hred|]. split; [|split; [|reflexivity]].
  - rewrite Hred. apply Q.le_max_l.
  - rewrite (isInteger_Qeq _ _ Hred).
    destruct (Qlt_le_dec 1 half) as [Hlt|Hle].
    + rewrite (isInteger_Qeq (Qmax 1 half) (Z.of_nat (cpus E) # 2)).
      2: { rewrite Q.max_r by (apply Qlt_le_weak; exact Hlt). exact Hhalf. }
      rewrite Hhalf in Hlt. unfold Qlt in Hlt. simpl in Hlt.
      unfold isInteger. simpl. rewrite Z.eqb_eq.
      split.
      * intros Hmod. right. exists (Z.to_nat (Z.of_nat (cpus E) / 2)).
        pose proof (Z.div_mod (Z.of_nat (cpus E)) 2). lia.
      * intros [Hsmall|[k Hk]]; [lia|]. rewrite Hk.
        rewrite Nat2Z.inj_mul. simpl (Z.of_nat 2).
        rewrite Z.mul_comm. apply Z.mod_mul. lia.
    + rewrite (isInteger_Qeq (Qmax 1 half) 1) by (apply Q.max_l; exact Hle).
      rewrite Hhalf in Hle. unfold Qle in Hle. simpl in Hle.
      split; [intros _; left; lia | reflexivity].
Qed.

(** * The further properties on the POSIX host *)

(** The resolution of [{}] returns a complete configuration. *)
Lemma returned_config_complete_witness :
  is_Some (browsers (returned (parseConfig posix emptyConfig CliArgs.empty moduleStore)))
  ∧ is_Some (reporters (returned (parseConfig posix emptyConfig CliArgs.empty moduleStore)))
  ∧ is_Some (logger (returned (parseConfig posix emptyConfig CliArgs.empty moduleStore)))
  ∧ (∃ framework,
       testFramework (returned (parseConfig posix emptyConfig CliArgs.empty moduleStore))
       = Some framework ∧ is_Some (framework !! "path"))
  ∧ is_Some (plugins (returned (parseConfig posix emptyConfig CliArgs.empty moduleStore))).
Proof.
  apply (returned_config_complete posix emptyConfig CliArgs.empty moduleStore _
           (returnedGroups (parseConfig posix emptyConfig CliArgs.empty moduleStore))
           (parseConfig posix emptyConfig CliArgs.empty moduleStore).2).
  vm_compute. reflexivity.
Defined.

(** Options for mocha without a path: the options are kept and the path is
    the autorun script. *)
Lemma test_framework_defaults_path_witness :
  ∃ framework,
    testFramework (returned (parseConfig posix mochaOptions CliArgs.empty moduleStore))
    = Some framework
    ∧ framework !! "config" = Some (VObj [("timeout", int 3000)])
    ∧ framework !! "path"
      = Some (VStr "/work/node_modules/@web/test-runner-mocha/dist/autorun.js").
Proof.
  destruct (test_framework_defaults_path posix mochaOptions CliArgs.empty moduleStore
              (returned (parseConfig posix mochaOptions CliArgs.empty moduleStore))
              (returnedGroups (parseConfig posix mochaOptions CliArgs.empty moduleStore))
              (parseConfig posix mochaOptions CliArgs.empty moduleStore).2)
    as (framework & Hframework & Hkept & _ & Hpath).
  - vm_compute. reflexivity.
  - exists framework. split; [exact Hframework|]. split.
    + apply Hkept. reflexivity.
    + apply Hpath. reflexivity.
Defined.

(** An empty reporter list stays empty. *)
Lemma reporters_default_witness :
  reporters (returned (parseConfig posix mochaOptions CliArgs.empty moduleStore))
  = Some [].
Proof.
  refine (eq_trans
            (reporters_default posix mochaOptions CliArgs.empty moduleStore _
               (returnedGroups (parseConfig posix mochaOptions CliArgs.empty moduleStore))
               (parseConfig posix mochaOptions CliArgs.empty moduleStore).2 _) _).
  - vm_compute. reflexivity.
  - reflexivity.
Defined.


(** A final configuration without an array, in the store of the module. *)
Lemma new_array_when_none_witness :
  ∃ c σ',
    assemblePlugins withoutArray moduleStore = (Ok c, σ')
    ∧ plugins c = Some 1
    ∧ σ' !! 0 = Some []
    ∧ σ' !! 1
      = Some [setViewportPlugin; emulateMediaPlugin; setUserAgentPlugin; syntaxChecker;
              nodeResolvePlugin (VStr "/work") VUndefined
                (Some {["browser" := VBool true]})].
Proof.
  destruct (new_array_when_none withoutArray moduleStore eq_refl)
    as (c & σ' & Hrun & Hplugins & _ & Hothers & Hlist).
  exists c, σ'. split; [exact Hrun|]. split; [exact Hplugins|]. split.
  - exact (Hothers 0 ltac:(simpl; lia)).
  - exact Hlist.
Defined.

(** With [nodeResolve: true] the options are [undefined] and the root
    directory is the resolved one. *)
Lemma node_resolve_is_last_witness :
  last <$> (parseConfig posix withUserPlugin CliArgs.empty userStore).2 !! userPlugins
  = Some (Some (nodeResolvePlugin (VStr "/work") VUndefined None)).
Proof.
  destruct (node_resolve_is_last posix withUserPlugin CliArgs.empty userStore
              (returned (parseConfig posix withUserPlugin CliArgs.empty userStore))
              (returnedGroups (parseConfig posix withUserPlugin CliArgs.empty userStore))
              (parseConfig posix withUserPlugin CliArgs.empty userStore).2
              userPlugins)
    as (rootDir & HrootDir & _ & Hlast).
  - vm_compute. reflexivity.
  - reflexivity.
  - reflexivity.
  - exists [plugin "P"]. reflexivity.
  - vm_compute in HrootDir. injection HrootDir as <-. exact Hlast.
Defined.


(** Of two groups named "a", one is returned. *)
Lemma focus_returns_one_group_witness :
  ∃ found focused,
    returnedGroups (parseConfig posix twoGroups (focusOn "a") moduleStore) = [focused]
    ∧ found ∈ resolveGroups posix twoGroups
    ∧ name focused = "a"
    ∧ name focused = name found
    ∧ overlay focused = overlay found.
Proof.
  exact (focus_returns_one_group posix twoGroups (focusOn "a") moduleStore
           (returned (parseConfig posix twoGroups (focusOn "a") moduleStore))
           (returnedGroups (parseConfig posix twoGroups (focusOn "a") moduleStore))
           (parseConfig posix twoGroups (focusOn "a") moduleStore).2
           "a" ltac:(vm_compute; reflexivity) eq_refl).
Defined.

(** The three groups that are returned without a focus. *)
Lemma no_default_group_returned_witness :
  Forall (λ g, name g ≠ "default")
         (returnedGroups (parseConfig posix twoGroups CliArgs.empty moduleStore)).
Proof.
  apply Forall_forall. intros g Hg.
  apply (no_default_group_returned posix twoGroups CliArgs.empty moduleStore
           (returned (parseConfig posix twoGroups CliArgs.empty moduleStore))
           (returnedGroups (parseConfig posix twoGroups CliArgs.empty moduleStore))
           (parseConfig posix twoGroups CliArgs.empty moduleStore).2 g).
  - vm_compute. reflexivity.
  - exact Hg.
Defined.

(** Three faults at once: the wrong-typed [hostname] is the one reported. *)
Lemma invalid_setting_reported_first_witness :
  parseConfig posix manyFaults puppeteerFirefox moduleStore
  = (Throw (TestRunnerStartError
              "Configuration error: The hostname setting should be a string."),
     moduleStore).
Proof.
  apply (invalid_setting_reported_first posix manyFaults puppeteerFirefox moduleStore
           (Primitive "hostname" "string")).
  vm_compute. reflexivity.
Defined.

(** The error of [{ rootDir: null }] is one of the exceptions. *)
Lemma thrown_errors_witness :
  let e := TestRunnerStartError "No rootDir specified." in
  (∃ key type, Primitive key type ∈ checks
     ∧ e = TestRunnerStartError
             ("Configuration error: The " +:+ key +:+ " setting should be a "
              +:+ type +:+ "."))
  ∨ e = Error "Configuration error: The esbuildTarget setting should be a string or array."
  ∨ e = Error "Configuration error: The files setting should be a string or an array."
  ∨ e = TestRunnerStartError "No rootDir specified."
  ∨ e = Error ("Cannot create a group named " +:+ dquote +:+ "default" +:+ dquote
               +:+ ". This named is reserved by the test runner.")
  ∨ (∃ group, CliArgs.group CliArgs.empty = Some group
       ∧ e = TestRunnerStartError ("Could not find any group named " +:+ group))
  ∨ e = TestRunnerStartError
          "The --puppeteer flag cannot be used when defining browsers manually in your finalConfig."
  ∨ e = TestRunnerStartError
          "The --playwright flag cannot be used when defining browsers manually in your finalConfig."
  ∨ e = TestRunnerStartError
          "The browsers option must be used along with the puppeteer or playwright option.".
Proof.
  apply (thrown_errors posix nullRootDir CliArgs.empty moduleStore
           (TestRunnerStartError "No rootDir specified.") moduleStore).
  vm_compute. reflexivity.
Defined.
